(** * YABOB help queues: the queue engine and the server orchestrator

    A shallow embedding of

    - [src/help-queue/help-queue.ts]: class [HelpQueueV2], one queue with its
      helpers, its waiting students and its open flag;
    - [src/attending-server/command-ch-constants.ts], whose second part is
      class [AttendingServerV2] (the module the other files import as
      base-attending-server): the array of queues of one guild and the
      commands that work across queues.

    JavaScript objects are shared by reference.  [HelpQueueV2] mutates the
    [Helper] and [Helpee] objects it is handed, so these live in a heap indexed
    by object identity, and the queue stores references.  [new Date()] is the
    clock reading [now] passed to an operation, as milliseconds ([getTime()]);
    every [new Date()] evaluated during one call reads that same value.
    A rejected promise or a [throw] is a [Rejected] completion paired with the
    state the operation leaves behind.  The methods are embedded first on the
    run in which the rendering, the calls on extensions and the Discord I/O
    awaited after the state change resolve; [callAwaited],
    [dequeueFirstAwaited] and [announceToStudentsInQueueAwaited] add the runs
    in which one of these awaited calls rejects. *)

From Stdlib Require Import Ascii String.
From stdpp Require Import base numbers option list gmap strings sorting.

Local Open Scope string_scope.

(** ** Discord objects, as far as the code reads them *)

Module Discord.

Record Role := mkRole { role_id : string; role_name : string }.

(** [voice] is [member.voice.channel]: the id of the voice channel the member
    is connected to, [None] for JavaScript's [null]. *)
Record GuildMember := mkGuildMember {
  member_id : string;
  displayName : string;
  roles : list Role;
  voice : option string
}.

#[export] Instance Role_eq_dec : EqDecision Role.
Proof. solve_decision. Defined.

#[export] Instance GuildMember_eq_dec : EqDecision GuildMember.
Proof. solve_decision. Defined.

#[export] Instance GuildMember_inhabited : Inhabited GuildMember :=
  populate (mkGuildMember "" "" [] None).

End Discord.
Export Discord.

(** ** models/member-states: [Helper] and [Helpee]

    The declarations are read off their uses: [helpStart], the optional
    [helpEnd], [helpedMembers] and [member] for a helper; [waitStart] and
    [member] for a waiting student. *)

Module MemberStates.

Record Helper := mkHelper {
  helpStart : Z;
  helpEnd : option Z;
  helpedMembers : list GuildMember;
  helper_member : GuildMember
}.

Record Helpee := mkHelpee {
  waitStart : Z;
  helpee_member : GuildMember
}.

#[export] Instance Helper_inhabited : Inhabited Helper :=
  populate (mkHelper 0 None [] inhabitant).
#[export] Instance Helpee_inhabited : Inhabited Helpee :=
  populate (mkHelpee 0 inhabitant).

(** Field assignments [helper.helpStart = d], [helper.helpEnd = d],
    [helper.helpedMembers.push(m)] and [student.waitStart = d]. *)
Definition setHelpStart (d : Z) (h : Helper) : Helper :=
  mkHelper d (helpEnd h) (helpedMembers h) (helper_member h).
Definition setHelpEnd (d : Z) (h : Helper) : Helper :=
  mkHelper (helpStart h) (Some d) (helpedMembers h) (helper_member h).
Definition pushHelpedMember (m : GuildMember) (h : Helper) : Helper :=
  mkHelper (helpStart h) (helpEnd h) (helpedMembers h ++ [m]) (helper_member h).
Definition setWaitStart (d : Z) (s : Helpee) : Helpee :=
  mkHelpee d (helpee_member s).

End MemberStates.
Export MemberStates.

(** ** utils/error-types *)

Module ErrorTypes.

Record QueueError := mkQueueError { qe_message : string; qe_queueName : string }.

Inductive Error :=
| ServerError (message : string)
| QueueErr (e : QueueError)
| TypeError (message : string).

(** How an awaited call completes. *)
Inductive Completion (E A : Type) :=
| Resolved (a : A)
| Rejected (e : E).
Arguments Resolved {E A} a.
Arguments Rejected {E A} e.

End ErrorTypes.
Export ErrorTypes.

(** ** help-queue.ts: class HelpQueueV2 *)

Module HelpQueueV2.

(** Object identity. *)
Abbreviation ref := nat (only parsing).

Record Heap := mkHeap {
  helperObjs : gmap nat Helper;
  helpeeObjs : gmap nat Helpee
}.

(** The fields of one [HelpQueueV2]: [helpers] is the [Set<Helper>] (a set of
    object references), [students] the [Helpee[]] array. *)
Record Queue := mkQueue {
  queueName : string;
  helpers : gset nat;
  students : list ref;
  isOpen : bool
}.

Definition World : Type := Heap * Queue.
Definition Outcome : Type := Completion QueueError unit * World.

Definition set_isOpen (b : bool) (q : Queue) : Queue :=
  mkQueue (queueName q) (helpers q) (students q) b.
Definition set_students (l : list ref) (q : Queue) : Queue :=
  mkQueue (queueName q) (helpers q) l (isOpen q).

Definition updHelper (f : Helper -> Helper) (r : ref) (σ : Heap) : Heap :=
  mkHeap (alter f r (helperObjs σ)) (helpeeObjs σ).
Definition updHelpee (f : Helpee -> Helpee) (r : ref) (σ : Heap) : Heap :=
  mkHeap (helperObjs σ) (alter f r (helpeeObjs σ)).

(** The [QueueError]s this class throws, under the names the specification
    gives them; each carries [this.queueChannel.queueName]. *)
Definition AlreadyOpen (q : Queue) : QueueError :=
  mkQueueError "The queue is already open." (queueName q).
Definition NotHosting (q : Queue) : QueueError :=
  mkQueueError "You are not currently hosting." (queueName q).
Definition NotOpen (q : Queue) : QueueError :=
  mkQueueError ("Queue " ++ queueName q ++ " is not open.") (queueName q).
Definition NoPermission (q : Queue) : QueueError :=
  mkQueueError "You don't have permission to help this queue" (queueName q).
Definition NoOneInQueue (q : Queue) : QueueError :=
  mkQueueError "There's no one in the queue" (queueName q).

(** [this.helpers.forEach(helper => ...)] *)
Definition forEachHelper (f : Helper -> Helper) (hs : gset nat) (σ : Heap) : Heap :=
  foldl (fun σ' r => updHelper f r σ') σ (elements hs).

(** [get length()] and [first()] *)
Definition length_ (q : Queue) : nat := length (students q).
Definition first (q : Queue) : option ref := head (students q).

Definition openQueue (now : Z) (w : World) : Outcome :=
  let '(σ, q) := w in
  if isOpen q then
    (Rejected (AlreadyOpen q), w)
  else
    (Resolved tt, (forEachHelper (setHelpStart now) (helpers q) σ, set_isOpen true q)).

Definition closeQueue (now : Z) (w : World) : Outcome :=
  let '(σ, q) := w in
  if isOpen q then
    (Rejected (NotHosting q), w)
  else
    (Resolved tt, (forEachHelper (setHelpEnd now) (helpers q) σ, set_isOpen false q)).

Definition enqueue (student : ref) (now : Z) (w : World) : Outcome :=
  let '(σ, q) := w in
  if negb (isOpen q) then
    (Rejected (NotOpen q), w)
  else
    (Resolved tt,
     (updHelpee (setWaitStart now) student σ,
      set_students (students q ++ [student]) q)).

Definition dequeue (helper : ref) (w : World) : Outcome :=
  let '(σ, q) := w in
  if negb (bool_decide (helper ∈ helpers q)) then
    (Rejected (NoPermission q), w)
  else
    match students q with
    | [] => (Rejected (NoOneInQueue q), w)
    | firstStudent :: rest =>
        (Resolved tt,
         (updHelper (pushHelpedMember (helpee_member (helpeeObjs σ !!! firstStudent))) helper σ,
          set_students rest q))
    end.

(** Calls awaited one after the other; the first rejection stops the run. *)
Fixpoint enqueueAll (ops : list (ref * Z)) (w : World) : Outcome :=
  match ops with
  | [] => (Resolved tt, w)
  | (student, now) :: ops' =>
      match enqueue student now w with
      | (Resolved _, w') => enqueueAll ops' w'
      | rejected => rejected
      end
  end.

Fixpoint dequeueTimes (n : nat) (helper : ref) (w : World) : Outcome :=
  match n with
  | O => (Resolved tt, w)
  | S n' =>
      match dequeue helper w with
      | (Resolved _, w') => dequeueTimes n' helper w'
      | rejected => rejected
      end
  end.

(** The [waitStart] stamps of a list of student objects, read from the heap. *)
Definition waitStarts (σ : Heap) (l : list ref) : list Z :=
  (fun r => waitStart (helpeeObjs σ !!! r)) <$> l.

(** *** Runs of calls on one queue

    A caller issues the public methods one after the other and awaits each;
    a rejection is caught by the caller and does not stop the later calls. *)
Inductive Call :=
| CallOpenQueue (now : Z)
| CallCloseQueue (now : Z)
| CallEnqueue (student : nat) (now : Z)
| CallDequeue (helper : nat).

Definition call (c : Call) (w : World) : Outcome :=
  match c with
  | CallOpenQueue now => openQueue now w
  | CallCloseQueue now => closeQueue now w
  | CallEnqueue student now => enqueue student now w
  | CallDequeue helper => dequeue helper w
  end.

Fixpoint run (calls : list Call) (w : World)
  : list (Completion QueueError unit) * World :=
  match calls with
  | [] => ([], w)
  | c :: calls' =>
      let '(r, w') := call c w in
      let '(rs, w'') := run calls' w' in
      (r :: rs, w'')
  end.

Definition isResolved {E A : Type} (c : Completion E A) : bool :=
  match c with Resolved _ => true | Rejected _ => false end.

Definition isOpenQueueCall (c : Call) : bool :=
  match c with CallOpenQueue _ => true | _ => false end.
Definition isCloseQueueCall (c : Call) : bool :=
  match c with CallCloseQueue _ => true | _ => false end.
Definition isEnqueueCall (c : Call) : bool :=
  match c with CallEnqueue _ _ => true | _ => false end.
Definition isDequeueCall (c : Call) : bool :=
  match c with CallDequeue _ => true | _ => false end.

(** How many of the calls of one kind resolved. *)
Fixpoint resolvedCalls (kind : Call -> bool) (calls : list Call)
    (results : list (Completion QueueError unit)) : nat :=
  match calls, results with
  | c :: calls', r :: results' =>
      (if kind c && isResolved r then 1 else 0) + resolvedCalls kind calls' results'
  | _, _ => 0
  end.

(** *** Calls whose rendering may fail

    Every method ends on [await this.triggerRender()], after its guard and
    after its writes.  [call] above is the method when the rendering resolves;
    when it rejects, the method rejects too, with the writes in place. *)
Inductive Rejection :=
| Thrown (e : QueueError)
| RenderRejected.

Definition callAwaited (c : Call) (renderResolves : bool) (w : World)
  : Completion Rejection unit * World :=
  match call c w with
  | (Resolved _, w') =>
      if renderResolves then (Resolved tt, w') else (Rejected RenderRejected, w')
  | (Rejected e, w') => (Rejected (Thrown e), w')
  end.

Fixpoint runAwaited (calls : list (Call * bool)) (w : World)
  : list (Completion Rejection unit) * World :=
  match calls with
  | [] => ([], w)
  | (c, renderResolves) :: calls' =>
      let '(r, w') := callAwaited c renderResolves w in
      let '(rs, w'') := runAwaited calls' w' in
      (r :: rs, w'')
  end.

(** A call got past its guards: it resolved, or only its rendering rejected. *)
Definition pastGuards (r : Completion Rejection unit) : bool :=
  match r with
  | Rejected (Thrown _) => false
  | _ => true
  end.

Fixpoint callsPastGuards (kind : Call -> bool) (calls : list (Call * bool))
    (results : list (Completion Rejection unit)) : nat :=
  match calls, results with
  | (c, _) :: calls', r :: results' =>
      (if kind c && pastGuards r then 1 else 0) + callsPastGuards kind calls' results'
  | _, _ => 0
  end.

End HelpQueueV2.

(** ** attending-server: class AttendingServerV2 *)

Module AttendingServerV2.

(** [QueueChannel]: the text channel (by id) and the queue name. *)
Record QueueChannel := mkQueueChannel { channelObj : string; queueName : string }.

(** *** The queue members the server calls

    [AttendingServerV2] calls [openQueue(helperMember)],
    [closeQueue(helperMember)], [dequeueWithHelper(helperMember)] and reads
    [name], [currentlyOpen], [first], [students] and [helpers.has(id)].
    help-queue.ts declares none of these in that form, so this interface is
    written from the specification of the queue engine.  Each queue keeps
    its own [Helper] record per helper id and its own [Helpee] array. *)

(** Modelled from the spec: the per-helper queue that [AttendingServerV2]
    is written against is not in help-queue.ts; name, authorized helpers
    keyed by member id, ordered waiting list, Open/Closed state. *)
Record Queue := mkQueue {
  name : string;
  helpers : gmap string Helper;
  students : list Helpee;
  currentlyOpen : bool
}.

(** [queue.length] and the getter [queue.first] *)
Definition length_ (q : Queue) : nat := length (students q).
Definition first (q : Queue) : option Helpee := head (students q).

(** [queue.helpers.has(helperMember.id)] *)
Definition helpersHas (helperMember : GuildMember) (q : Queue) : bool :=
  bool_decide (is_Some (helpers q !! member_id helperMember)).

(** [Required<Helper>]: a helper record whose [helpEnd] is set. *)
Record RequiredHelper := mkRequiredHelper {
  r_helpStart : Z;
  r_helpEnd : Z;
  r_helpedMembers : list GuildMember;
  r_member : GuildMember
}.

(** Modelled from the spec: the messages of the missing methods are not in
    the source; a [QueueError] is "AlreadyOpen, NotHosting, NotOpen, Empty,
    ..." and "always carries the offending queue's name". *)
Definition AlreadyOpen (q : Queue) := mkQueueError "AlreadyOpen" (name q).
Definition NotHosting (q : Queue) := mkQueueError "NotHosting" (name q).
Definition NotAuthorized (q : Queue) := mkQueueError "NotAuthorized" (name q).
Definition Empty (q : Queue) := mkQueueError "Empty" (name q).

(** Modelled from the spec: [openQueue(helperMember)] is missing from
    help-queue.ts.  "open fails with AlreadyOpen if already Open; on success
    it stamps helpStart = now for the opening helper and adds it to the
    authorized-helper set if absent". *)
Definition openQueue (helperMember : GuildMember) (now : Z) (q : Queue)
  : Completion QueueError unit * Queue :=
  if currentlyOpen q then (Rejected (AlreadyOpen q), q)
  else
    let helper :=
      match helpers q !! member_id helperMember with
      | Some h => setHelpStart now h
      | None => mkHelper now None [] helperMember
      end in
    (Resolved tt,
     mkQueue (name q) (<[member_id helperMember := helper]> (helpers q)) (students q) true).

(** Modelled from the spec: [closeQueue(helperMember)] is missing from
    help-queue.ts.  "close fails with NotHosting if the given helper is not in
    the authorized set or the queue is not Open; on success it stamps that
    helper's helpEnd = now [...] and returns the closed helper's session
    (start/end/served-list)". *)
Definition closeQueue (helperMember : GuildMember) (now : Z) (q : Queue)
  : Completion QueueError RequiredHelper * Queue :=
  match helpers q !! member_id helperMember with
  | Some h =>
      if currentlyOpen q then
        (Resolved (mkRequiredHelper (helpStart h) now (helpedMembers h) (helper_member h)),
         mkQueue (name q) (<[member_id helperMember := setHelpEnd now h]> (helpers q))
                 (students q) false)
      else (Rejected (NotHosting q), q)
  | None => (Rejected (NotHosting q), q)
  end.

(** Modelled from the spec: [dequeueWithHelper(helperMember)] is missing from
    help-queue.ts.  "dequeueNext(helper) fails with NotAuthorized if helper is
    not in the queue's authorized set, Empty if the waiting list is empty;
    otherwise removes and returns the head requester, appends it to the
    helper's served list". *)
Definition dequeueWithHelper (helperMember : GuildMember) (q : Queue)
  : Completion QueueError Helpee * Queue :=
  match helpers q !! member_id helperMember with
  | None => (Rejected (NotAuthorized q), q)
  | Some h =>
      match students q with
      | [] => (Rejected (Empty q), q)
      | firstStudent :: rest =>
          (Resolved firstStudent,
           mkQueue (name q)
                   (<[member_id helperMember := pushHelpedMember (helpee_member firstStudent) h]>
                      (helpers q))
                   rest (currentlyOpen q))
      end
  end.

(** *** Array helpers *)

(** [Array.prototype.reduce] without an initial value; [None] on the empty
    array, where JavaScript throws a [TypeError]. *)
Definition reduce {A : Type} (f : A -> A -> A) (l : list A) : option A :=
  match l with
  | [] => None
  | x :: xs => Some (foldl f x xs)
  end.

(** The queue objects of [this.queues] paired with their positions: a queue
    picked out of a filtered array is still the object at that position. *)
Definition indexed (queues : list Queue) : list (nat * Queue) :=
  imap (fun i q => (i, q)) queues.

(** [this.queues.filter(sel).map(queue => queue.op(...))]: every selected
    queue runs [op] in array order and keeps what [op] did to it. *)
Fixpoint mapSelected {A : Type} (sel : Queue -> bool)
    (op : Queue -> Completion QueueError A * Queue) (queues : list Queue)
  : list (Completion QueueError A) * list Queue :=
  match queues with
  | [] => ([], [])
  | q :: rest =>
      let '(results, rest') := mapSelected sel op rest in
      if sel q then
        let '(r, q') := op q in (r :: results, q' :: rest')
      else (results, q :: rest')
  end.

(** [Promise.all]: all the values, or a rejection if one promise rejects. *)
Fixpoint Promise_all {E A : Type} (l : list (Completion E A)) : Completion E (list A) :=
  match l with
  | [] => Resolved []
  | Rejected e :: _ => Rejected e
  | Resolved a :: rest =>
      match Promise_all rest with
      | Resolved vs => Resolved (a :: vs)
      | Rejected e =>  Rejected e
      end
  end.

(** [helperMember.roles.cache.map(role => role.name).includes(queue.name)] *)
Definition hasRoleNamed (helperMember : GuildMember) (q : Queue) : bool :=
  existsb (String.eqb (name q)) (role_name <$> roles helperMember).

(** [helperMember.roles.cache.has(key)]: the cache is keyed by role id. *)
Definition rolesCacheHas (helperMember : GuildMember) (key : string) : bool :=
  existsb (String.eqb key) (role_id <$> roles helperMember).

(** *** dequeueFirst *)

Definition currentlyHelpingChannels (helperMember : GuildMember) (queues : list Queue)
  : list (nat * Queue) :=
  List.filter (fun iq => helpersHas helperMember iq.2) (indexed queues).

Definition nonEmptyQueues (helperMember : GuildMember) (queues : list Queue)
  : list (nat * Queue) :=
  List.filter (fun iq => currentlyOpen iq.2 && negb (length_ iq.2 =? 0)%nat)
              (currentlyHelpingChannels helperMember queues).

(** [queue.first?.waitStart] *)
Definition firstWaitStart (q : Queue) : option Z := waitStart <$> first q.

(** The callback of the [reduce] that picks [queueToDeq]. *)
Definition olderFirst (prev curr : nat * Queue) : nat * Queue :=
  match firstWaitStart prev.2, firstWaitStart curr.2 with
  | Some p, Some c => if (p <? c)%Z then prev else curr
  | _, _ => curr
  end.

(** The call on [specificQueue] is neither awaited nor returned: what it
    does to the queue stays, its result is dropped, and [dequeueFirst] goes
    on to the cross-queue part. *)
Definition dequeueSpecific (helperMember : GuildMember) (specificQueue : QueueChannel)
    (queues : list Queue) : list Queue :=
  match list_find (fun q => name q = queueName specificQueue) queues with
  | Some (i, q) => <[i := (dequeueWithHelper helperMember q).2]> queues
  | None => queues
  end.

Definition dequeueFirst (helperMember : GuildMember) (specificQueue : option QueueChannel)
    (queues : list Queue) : Completion Error Helpee * list Queue :=
  let afterSpecific :=
    match specificQueue with
    | Some sq =>
        if negb (rolesCacheHas helperMember (queueName sq)) then
          inl (ServerError ("You don't have the permission to dequeue `"
                            ++ queueName sq ++ "`."))
        else inr (dequeueSpecific helperMember sq queues)
    | None => inr queues
    end in
  match afterSpecific with
  | inl e => (Rejected e, queues)
  | inr queues1 =>
      if (length (currentlyHelpingChannels helperMember queues1) =? 0)%nat then
        (Rejected (ServerError "You are not currently hosting."), queues1)
      else
        match voice helperMember with
        | None =>
            (Rejected (ServerError "You need to be in a voice channel first."), queues1)
        | Some helperVoiceChannel =>
            if (length (nonEmptyQueues helperMember queues1) =? 0)%nat then
              (Rejected (ServerError
                 "There's no one left to help. You should get some coffee!"), queues1)
            else
              match reduce olderFirst (nonEmptyQueues helperMember queues1) with
              | None =>
                  (Rejected (TypeError "Reduce of empty array with no initial value"),
                   queues1)
              | Some (i, queueToDeq) =>
                  match dequeueWithHelper helperMember queueToDeq with
                  | (Resolved student, q') => (Resolved student, <[i := q']> queues1)
                  | (Rejected e, q') => (Rejected (QueueErr e), <[i := q']> queues1)
                  end
              end
        end
  end.

(** *** openAllOpenableQueues and closeAllClosableQueues

    The clock is read once per command: "the time offsets between each
    queue is negligible". *)

Definition newline : string := String "010"%char EmptyString.

Definition noClassRoles : string :=
  "It seems like you don't have any class roles." ++ newline ++
  "This might be a human error. " ++
  "In the meantime, you can help students through DMs.".

Definition openAllOpenableQueues (helperMember : GuildMember) (now : Z)
    (queues : list Queue) : Completion Error unit * list Queue :=
  let openableQueues := List.filter (hasRoleNamed helperMember) queues in
  if (length openableQueues =? 0)%nat then
    (Rejected (ServerError noClassRoles), queues)
  else
    let '(results, queues') :=
      mapSelected (hasRoleNamed helperMember) (openQueue helperMember now) queues in
    match Promise_all results with
    | Rejected _ => (Rejected (ServerError "You are already hosting."), queues')
    | Resolved _ => (Resolved tt, queues')
    end.

(** The callback of the [reduce] that picks [maxHelpTime]. *)
Definition pickHelpTime (prev curr : RequiredHelper) : RequiredHelper :=
  if (r_helpEnd prev >? r_helpStart curr)%Z then prev else curr.

(** [helpEnd.getTime() - helpStart.getTime()] *)
Definition helpTime (h : RequiredHelper) : Z := (r_helpEnd h - r_helpStart h)%Z.

Definition closeAllClosableQueues (helperMember : GuildMember) (now : Z)
    (queues : list Queue) : Completion Error RequiredHelper * list Queue :=
  let '(results, queues') :=
    mapSelected (hasRoleNamed helperMember) (closeQueue helperMember now) queues in
  match Promise_all results with
  | Rejected _ => (Rejected (ServerError "You are not currently hosting."), queues')
  | Resolved helpTimes =>
      match reduce pickHelpTime helpTimes with
      | None =>
          (Rejected (TypeError "Reduce of empty array with no initial value"), queues')
      | Some maxHelpTime => (Resolved maxHelpTime, queues')
      end
  end.

(** The sessions [closeAllClosableQueues] gets back from the queues it
    closes, in array order. *)
Definition closedSessions (helperMember : GuildMember) (now : Z)
    (queues : list Queue) : Completion QueueError (list RequiredHelper) :=
  Promise_all (mapSelected (hasRoleNamed helperMember)
                           (closeQueue helperMember now) queues).1.

(** *** announceToStudentsInQueue *)

Inductive EmbedColor := NeedName.

(** [SimpleEmbed(message, color?, description?)] *)
Record Embed := SimpleEmbed {
  embedMessage : string;
  embedColor : option EmbedColor;
  embedDescription : option string
}.

(** [member.send(embed)] *)
Record DirectMessage := mkDM { recipient : GuildMember; content : Embed }.

Definition announceToStudentsInQueue (helperMember : GuildMember) (message : string)
    (targetQueue : option QueueChannel) (queues : list Queue)
  : Completion Error unit * list DirectMessage :=
  let toEveryQueue : list DirectMessage :=
    (fun student => mkDM (helpee_member student) (SimpleEmbed message None None))
      <$> concat (students <$> List.filter (helpersHas helperMember) queues) in
  match targetQueue with
  | Some tq =>
      match List.find (fun queue => String.eqb (name queue) (queueName tq)
                                    && helpersHas helperMember queue) queues with
      | None =>
          (Rejected (ServerError ("You don't have permission to announce in "
                                  ++ queueName tq ++ ". " ++ "Check your class roles.")),
           [])
      | Some queueToAnnounce =>
          let toTargetQueue : list DirectMessage :=
            (fun student =>
               mkDM (helpee_member student)
                    (SimpleEmbed ("Staff member " ++ displayName helperMember
                                  ++ " announced: " ++ message)
                                 (Some NeedName)
                                 (Some ("In queue: " ++ queueName tq))))
              <$> students queueToAnnounce in
          (Resolved tt, app toTargetQueue toEveryQueue)
      end
  | None => (Resolved tt, toEveryQueue)
  end.

(** *** getQueueChannels and createQueue

    The guild's channels as the code reads them: type, name, id, and for a
    category its child channels. *)

Inductive ChannelType := GUILD_CATEGORY | GUILD_TEXT | GUILD_VOICE.

Record ChildChannel := mkChildChannel {
  child_id : string;
  child_name : string;
  child_type : ChannelType
}.

Record GuildChannel := mkGuildChannel {
  ch_id : string;
  ch_name : string;
  ch_type : ChannelType;
  ch_children : list ChildChannel
}.

Definition isCategory (ch : GuildChannel) : bool :=
  match ch_type ch with GUILD_CATEGORY => true | _ => false end.

(** [child.name === "queue" && child.type === "GUILD_TEXT"] *)
Definition isQueueTextChannel (child : ChildChannel) : bool :=
  String.eqb (child_name child) "queue"
  && match child_type child with GUILD_TEXT => true | _ => false end.

(** [getQueueChannels], on the channels it read from the cache or fetched:
    categories, each paired with its first text child named "queue", those
    without one dropped. *)
Definition getQueueChannels (allChannels : list GuildChannel) : list QueueChannel :=
  omap (fun pair : option ChildChannel * string =>
          (fun ch => mkQueueChannel (child_id ch) pair.2) <$> pair.1)
       ((fun category => (List.find isQueueTextChannel (ch_children category),
                          ch_name category))
          <$> List.filter isCategory allChannels).

(** [arr.indexOf(item)], [None] for -1. *)
Definition indexOf (item : string) (arr : list string) : option nat :=
  fst <$> list_find (fun x => x = item) arr.

(** [queueChannels.map(q => q.queueName)
       .filter((item, index, arr) => arr.indexOf(item) !== index)]:
    the names [getQueueChannels] warns about when this list is not empty. *)
Definition duplicateQueues (queueChannels : list QueueChannel) : list string :=
  let arr := queueName <$> queueChannels in
  snd <$> List.filter
            (fun entry : nat * string =>
               negb (bool_decide (indexOf entry.2 arr = Some entry.1)))
            (imap (fun index item => (index, item)) arr).


(** *** deleteQueueById

    The queue record above has no channel; [parentCategoryId] stands for
    [queue.channelObj.parent?.id].  The Discord calls between the lookup and
    the [splice] (deleting the channels, the category and the role) are taken
    to succeed. *)
Section DeleteQueue.
Variable parentCategoryId : Queue -> option string.

Definition deleteQueueById (queueCategoryID : string) (queues : list Queue)
  : Completion Error unit * list Queue :=
  match list_find (fun queue => parentCategoryId queue = Some queueCategoryID) queues with
  | None => (Rejected (ServerError "This queue does not exist."), queues)
  | Some (queueIndex, _) => (Resolved tt, delete queueIndex queues)
  end.

End DeleteQueue.

(** *** removeStudentFromQueue, clearQueue and the notification group

    Each of these looks the queue up by name and calls one method on it with
    optional chaining, [this.queues.find(...)?.method(...)].  The methods
    ([removeStudent], [removeAllStudents], [addToNotifGroup],
    [removeFromNotifGroup]) are not in help-queue.ts and are parameters. *)
Definition callOnQueueNamed (targetName : string)
    (method : Queue -> Completion QueueError unit * Queue) (queues : list Queue)
  : Completion Error unit * list Queue :=
  match list_find (fun queue => name queue = targetName) queues with
  | Some (i, queue) =>
      match method queue with
      | (Resolved _, queue') => (Resolved tt, <[i := queue']> queues)
      | (Rejected e, queue') => (Rejected (QueueErr e), <[i := queue']> queues)
      end
  | None => (Resolved tt, queues)
  end.

Section QueueMethods.
Variable removeStudent : GuildMember -> Queue -> Completion QueueError unit * Queue.
Variable removeAllStudents : Queue -> Completion QueueError unit * Queue.
Variable addToNotifGroup : GuildMember -> Queue -> Completion QueueError unit * Queue.
Variable removeFromNotifGroup : GuildMember -> Queue -> Completion QueueError unit * Queue.

Definition removeStudentFromQueue (studentMember : GuildMember) (targetQueue : QueueChannel)
    (queues : list Queue) : Completion Error unit * list Queue :=
  callOnQueueNamed (queueName targetQueue) (removeStudent studentMember) queues.

Definition clearQueue (targetQueue : QueueChannel) (queues : list Queue)
  : Completion Error unit * list Queue :=
  callOnQueueNamed (queueName targetQueue) removeAllStudents queues.

Definition addStudentToNotifGroup (studentMember : GuildMember) (targetQueue : QueueChannel)
    (queues : list Queue) : Completion Error unit * list Queue :=
  callOnQueueNamed (queueName targetQueue) (addToNotifGroup studentMember) queues.

Definition removeStudentFromNotifGroup (studentMember : GuildMember)
    (targetQueue : QueueChannel) (queues : list Queue)
  : Completion Error unit * list Queue :=
  callOnQueueNamed (queueName targetQueue) (removeFromNotifGroup studentMember) queues.

End QueueMethods.

(** *** Awaited Discord calls that may fail

    After its dequeue, [dequeueFirst] awaits the permission overwrite, the
    invite, the direct message to the student and the extensions; the
    announcement awaits its direct messages.  [dequeueFirst] and
    [announceToStudentsInQueue] above are the runs in which these calls
    resolve.  When one of them rejects, the method rejects with what it has
    done so far left in place. *)
Inductive Rejection :=
| Thrown (e : Error)
| AwaitedCallRejected.

Definition dequeueFirstAwaited (discordResolves : bool) (helperMember : GuildMember)
    (specificQueue : option QueueChannel) (queues : list Queue)
  : Completion Rejection Helpee * list Queue :=
  match dequeueFirst helperMember specificQueue queues with
  | (Resolved student, queues') =>
      if discordResolves then (Resolved student, queues')
      else (Rejected AwaitedCallRejected, queues')
  | (Rejected e, queues') => (Rejected (Thrown e), queues')
  end.

(** [await Promise.all(students.map(student => student.member.send(...)))]:
    every send of the batch is started; the batch resolves when all of them
    do.  The second component is the list of sends started. *)
Definition announceToStudentsInQueueAwaited (sendResolves : DirectMessage -> bool)
    (helperMember : GuildMember) (message : string)
    (targetQueue : option QueueChannel) (queues : list Queue)
  : Completion Rejection unit * list DirectMessage :=
  let toEveryQueue : list DirectMessage :=
    (fun student => mkDM (helpee_member student) (SimpleEmbed message None None))
      <$> concat (students <$> List.filter (helpersHas helperMember) queues) in
  let broadcast (sentBefore : list DirectMessage) :=
    (if forallb sendResolves toEveryQueue
     then Resolved tt else Rejected AwaitedCallRejected,
     app sentBefore toEveryQueue) in
  match targetQueue with
  | Some tq =>
      match List.find (fun queue => String.eqb (name queue) (queueName tq)
                                    && helpersHas helperMember queue) queues with
      | None =>
          (Rejected (Thrown (ServerError ("You don't have permission to announce in "
                                          ++ queueName tq ++ ". "
                                          ++ "Check your class roles."))),
           [])
      | Some queueToAnnounce =>
          let toTargetQueue : list DirectMessage :=
            (fun student =>
               mkDM (helpee_member student)
                    (SimpleEmbed ("Staff member " ++ displayName helperMember
                                  ++ " announced: " ++ message)
                                 (Some NeedName)
                                 (Some ("In queue: " ++ queueName tq))))
              <$> students queueToAnnounce in
          if forallb sendResolves toTargetQueue then broadcast toTargetQueue
          else (Rejected AwaitedCallRejected, toTargetQueue)
      end
  | None => broadcast []
  end.

End AttendingServerV2.

Local Open Scope list_scope.

(** ** Sample guilds, queues and heaps used by the examples below *)

Module Scenarios.

Definition alice : GuildMember := mkGuildMember "101" "Alice" [] None.
Definition bob : GuildMember := mkGuildMember "102" "Bob" [] None.
Definition carol : GuildMember := mkGuildMember "103" "Carol" [] None.

(** *** One queue of help-queue.ts

    Helper objects 10 and 11, student objects 0, 1 and 2. *)

Definition hana : GuildMember := mkGuildMember "201" "Hana" [] None.
Definition hugo : GuildMember := mkGuildMember "202" "Hugo" [] None.

Definition heap0 : HelpQueueV2.Heap :=
  HelpQueueV2.mkHeap
    {[ 10 := mkHelper 1 None [] hana; 11 := mkHelper 2 None [] hugo ]}
    {[ 0 := mkHelpee 0 alice; 1 := mkHelpee 0 bob; 2 := mkHelpee 0 carol ]}.

Definition mathClosed : HelpQueueV2.Queue :=
  HelpQueueV2.mkQueue "Math" {[ 10; 11 ]} [] false.
Definition mathOpen : HelpQueueV2.Queue :=
  HelpQueueV2.mkQueue "Math" {[ 10; 11 ]} [] true.
Definition mathOpenAlice : HelpQueueV2.Queue :=
  HelpQueueV2.mkQueue "Math" {[ 10; 11 ]} [0] true.
Definition mathClosedAlice : HelpQueueV2.Queue :=
  HelpQueueV2.mkQueue "Math" {[ 10; 11 ]} [0] false.

(** *** A guild with the queues "Math" and "Physics"

    Tina holds both class roles and sits in voice channel "vc1"; Omar has no
    class role and hosts nothing. *)

Definition classRoles : list Role := [mkRole "r1" "Math"; mkRole "r2" "Physics"].
Definition tina : GuildMember := mkGuildMember "301" "Tina" classRoles (Some "vc1").
Definition tinaNoVoice : GuildMember := mkGuildMember "301" "Tina" classRoles None.
Definition tinaPhysicsOnly : GuildMember :=
  mkGuildMember "301" "Tina" [mkRole "r2" "Physics"] (Some "vc1").
Definition omar : GuildMember := mkGuildMember "302" "Omar" [] (Some "vc2").

Definition tinaSince (start : Z) : gmap string Helper :=
  {[ "301" := mkHelper start None [] tina ]}.

(** Both queues Open and hosted by Tina; Alice waits in "Math" since 5, Bob in
    "Physics" since 3. *)
Definition math : AttendingServerV2.Queue :=
  AttendingServerV2.mkQueue "Math" (tinaSince 0) [mkHelpee 5 alice] true.
Definition physics : AttendingServerV2.Queue :=
  AttendingServerV2.mkQueue "Physics" (tinaSince 0) [mkHelpee 3 bob] true.
Definition mathChannel : AttendingServerV2.QueueChannel :=
  AttendingServerV2.mkQueueChannel "c1" "Math".

(** "Math" already Open, "Physics" still Closed. *)
Definition physicsClosed : AttendingServerV2.Queue :=
  AttendingServerV2.mkQueue "Physics" ∅ [] false.

(** Both queues Closed, nobody hosting: the guild right after start-up. *)
Definition mathFresh : AttendingServerV2.Queue :=
  AttendingServerV2.mkQueue "Math" ∅ [] false.
Definition physicsFresh : AttendingServerV2.Queue :=
  AttendingServerV2.mkQueue "Physics" ∅ [] false.

(** Tina hosts "Math" since 90 and "Physics" since 0. *)
Definition mathSince90 : AttendingServerV2.Queue :=
  AttendingServerV2.mkQueue "Math" (tinaSince 90) [] true.
Definition physicsSince0 : AttendingServerV2.Queue :=
  AttendingServerV2.mkQueue "Physics" (tinaSince 0) [] true.

End Scenarios.

(** * Properties of the queue engine (help-queue.ts) *)

Module HelpQueueV2_Properties.
Import HelpQueueV2.

(** *** forEach over the helper set *)

Section ForEach.
Variable f : Helper -> Helper.

Lemma foldl_updHelper_helpees (l : list nat) (σ : Heap) :
  helpeeObjs (foldl (fun σ' r => updHelper f r σ') σ l) = helpeeObjs σ.
Proof.
  revert σ. induction l as [|r l IH]; intros σ; simpl; [done|].
  by rewrite IH.
Qed.

Lemma foldl_updHelper_lookup (l : list nat) (σ : Heap) (r : nat) :
  NoDup l ->
  helperObjs (foldl (fun σ' r => updHelper f r σ') σ l) !! r
  = if decide (r ∈ l) then f <$> helperObjs σ !! r else helperObjs σ !! r.
Proof.
  revert σ. induction l as [|x l IH]; intros σ Hnd; simpl.
  - destruct (decide (r ∈ [])) as [Hin|_]; [by apply elem_of_nil in Hin | done].
  - apply NoDup_cons in Hnd as [Hx Hnd].
    rewrite IH by done. unfold updHelper; simpl.
    destruct (decide (r = x)) as [->|Hne].
    + rewrite lookup_alter_eq.
      rewrite decide_False by done.
      rewrite decide_True by (apply elem_of_cons; by left). done.
    + rewrite lookup_alter_ne by done.
      destruct (decide (r ∈ l)) as [Hin|Hnin].
      * rewrite decide_True by (apply elem_of_cons; by right). done.
      * rewrite decide_False; [done|].
        intros [?|?]%elem_of_cons; done.
Qed.

Lemma forEachHelper_helpees (hs : gset nat) (σ : Heap) :
  helpeeObjs (forEachHelper f hs σ) = helpeeObjs σ.
Proof. apply foldl_updHelper_helpees. Qed.

Lemma forEachHelper_lookup (hs : gset nat) (σ : Heap) (r : nat) :
  helperObjs (forEachHelper f hs σ) !! r
  = if decide (r ∈ hs) then f <$> helperObjs σ !! r else helperObjs σ !! r.
Proof.
  unfold forEachHelper.
  rewrite foldl_updHelper_lookup by apply NoDup_elements.
  destruct (decide (r ∈ hs)) as [Hin|Hnin].
  - rewrite decide_True; [done|]. by apply elem_of_elements.
  - rewrite decide_False; [done|]. by rewrite elem_of_elements.
Qed.
End ForEach.

(** *** closeQueue *)

(** C1, at a failing input.  [closeQueue] tests [this.isOpen] where its message
    calls for the opposite: on every Open queue, whoever is in its helper set,
    it throws "You are not currently hosting." before anything is written, so
    the queue stays Open and no helper's [helpEnd] is stamped. *)
Theorem closeQueue_rejects_on_open_queue (now : Z) (σ : Heap) (q : Queue) :
  isOpen q = true ->
  closeQueue now (σ, q) = (Rejected (NotHosting q), (σ, q)).
Proof. intros Hopen. unfold closeQueue. by rewrite Hopen. Qed.

(** The Open queue "Math", with the helper objects 10 and 11 in its helper
    set. *)
Lemma closeQueue_rejects_on_open_queue_witness :
  isOpen Scenarios.mathOpen = true /\ 10 ∈ helpers Scenarios.mathOpen /\
  closeQueue 50 (Scenarios.heap0, Scenarios.mathOpen)
  = (Rejected (NotHosting Scenarios.mathOpen), (Scenarios.heap0, Scenarios.mathOpen)).
Proof.
  split; [reflexivity|]. split; [compute_done|].
  apply (closeQueue_rejects_on_open_queue 50 Scenarios.heap0 Scenarios.mathOpen).
  reflexivity.
Defined.

(** *** openQueue *)

(** C6, counterexample.  Opening the Closed queue "Math" at time 50 stamps
    [helpStart = 50] on both helper objects 10 and 11 (they had 1 and 2), and
    the helper set is the same afterwards. *)
Lemma openQueue_counterexample :
  exists σ' q',
    openQueue 50 (Scenarios.heap0, Scenarios.mathClosed) = (Resolved tt, (σ', q')) /\
    helpStart (helperObjs Scenarios.heap0 !!! 10) = 1%Z /\
    helpStart (helperObjs Scenarios.heap0 !!! 11) = 2%Z /\
    helpStart (helperObjs σ' !!! 10) = 50%Z /\
    helpStart (helperObjs σ' !!! 11) = 50%Z /\
    helpers q' = helpers Scenarios.mathClosed.
Proof.
  do 2 eexists. split; [reflexivity|].
  repeat split; vm_compute; reflexivity.
Qed.

(** C6, as the code has it.  [openQueue] takes no helper.  On an Open queue it
    rejects with "The queue is already open." and changes nothing.  On a Closed
    queue it resolves: the queue is Open, every helper object in the helper set
    has [helpStart = now] with [helpEnd], [helpedMembers] and [member] as
    before, no helper is added to the set, and the waiting list, the student
    objects and all other helper objects are as before. *)
Theorem openQueue_outcome (now : Z) (σ : Heap) (q : Queue) :
  if isOpen q then
    openQueue now (σ, q) = (Rejected (AlreadyOpen q), (σ, q))
  else
    exists σ',
      openQueue now (σ, q) = (Resolved tt, (σ', set_isOpen true q)) /\
      helpeeObjs σ' = helpeeObjs σ /\
      forall r : nat,
        helperObjs σ' !! r
        = if decide (r ∈ helpers q) then setHelpStart now <$> helperObjs σ !! r
          else helperObjs σ !! r.
Proof.
  unfold openQueue. destruct (isOpen q); [done|].
  eexists. split; [done|]. split; [apply forEachHelper_helpees|].
  intros r. apply forEachHelper_lookup.
Qed.

(** *** enqueue *)

(** C4.  On a Closed queue [enqueue] rejects with "Queue <name> is not open."
    and the heap and the queue, waiting list included, are what they were. *)
Theorem enqueue_closed (student : ref) (now : Z) (σ : Heap) (q : Queue) :
  isOpen q = false ->
  enqueue student now (σ, q) = (Rejected (NotOpen q), (σ, q)).
Proof. intros Hclosed. unfold enqueue. by rewrite Hclosed. Qed.

Lemma enqueue_closed_witness :
  isOpen Scenarios.mathClosedAlice = false /\
  enqueue 1 7 (Scenarios.heap0, Scenarios.mathClosedAlice)
  = (Rejected (NotOpen Scenarios.mathClosedAlice),
     (Scenarios.heap0, Scenarios.mathClosedAlice)).
Proof.
  split; [reflexivity|].
  apply (enqueue_closed 1 7 Scenarios.heap0 Scenarios.mathClosedAlice). reflexivity.
Defined.

Lemma enqueue_open (student : ref) (now : Z) (σ : Heap) (q : Queue) :
  isOpen q = true ->
  enqueue student now (σ, q)
  = (Resolved tt,
     (updHelpee (setWaitStart now) student σ, set_students (students q ++ [student]) q)).
Proof. intros Hopen. unfold enqueue. by rewrite Hopen. Qed.

(** C5, counterexample.  Student object 0 is waiting in the Open queue "Math";
    enqueueing it again resolves and the waiting list becomes [0; 0]. *)
Lemma enqueue_counterexample :
  isOpen Scenarios.mathOpenAlice = true /\
  0 ∈ students Scenarios.mathOpenAlice /\
  exists σ' q',
    enqueue 0 7 (Scenarios.heap0, Scenarios.mathOpenAlice) = (Resolved tt, (σ', q')) /\
    students q' = [0; 0].
Proof.
  split; [reflexivity|]. split; [compute_done|].
  do 2 eexists. split; reflexivity.
Qed.

(** C5, as the code has it.  On an Open queue [enqueue] has no check for a
    requester who is already waiting: it resolves, stamps [waitStart = now] on
    the student object and appends it at the tail, so the requester then occurs
    once more than before. *)
Theorem enqueue_already_waiting (student : ref) (now : Z) (σ : Heap) (q : Queue) :
  isOpen q = true ->
  student ∈ students q ->
  exists σ' q',
    enqueue student now (σ, q) = (Resolved tt, (σ', q')) /\
    students q' = students q ++ [student] /\
    helpeeObjs σ' !! student = setWaitStart now <$> helpeeObjs σ !! student /\
    ~ NoDup (students q').
Proof.
  intros Hopen Hin. rewrite enqueue_open by done.
  do 2 eexists. split; [done|]. split; [done|]. split.
  - simpl. apply lookup_alter_eq.
  - simpl. intros (_ & Hdisj & _)%NoDup_app.
    apply (Hdisj student Hin). apply elem_of_cons; by left.
Qed.

Lemma enqueue_already_waiting_witness :
  exists σ' q',
    enqueue 0 7 (Scenarios.heap0, Scenarios.mathOpenAlice) = (Resolved tt, (σ', q')) /\
    students q' = students Scenarios.mathOpenAlice ++ [0] /\
    helpeeObjs σ' !! 0 = setWaitStart 7 <$> helpeeObjs Scenarios.heap0 !! 0 /\
    ~ NoDup (students q').
Proof.
  apply (enqueue_already_waiting 0 7 Scenarios.heap0 Scenarios.mathOpenAlice).
  - reflexivity.
  - compute_done.
Defined.

(** *** First in, first out *)

Lemma waitStarts_ext (σ σ' : Heap) (l : list ref) :
  (forall r, r ∈ l -> helpeeObjs σ' !! r = helpeeObjs σ !! r) ->
  waitStarts σ' l = waitStarts σ l.
Proof.
  intros Hsame. unfold waitStarts. apply list_fmap_ext.
  intros i r Hr. rewrite !lookup_total_alt, Hsame; [done|].
  by eapply list_elem_of_lookup_2.
Qed.

(** A run of [enqueue] calls on an Open queue, each on a student object that is
    not enqueued twice in the run: all resolve, the objects are appended in
    call order, each carries the clock reading of its call, and nothing else in
    the heap moves. *)
Lemma enqueueAll_spec (ops : list (ref * Z)) :
  forall (σ : Heap) (q : Queue),
    isOpen q = true ->
    NoDup ops.*1 ->
    (forall s, s ∈ ops.*1 -> is_Some (helpeeObjs σ !! s)) ->
    exists σ1,
      enqueueAll ops (σ, q)
      = (Resolved tt, (σ1, set_students (students q ++ ops.*1) q)) /\
      helperObjs σ1 = helperObjs σ /\
      (forall r, r ∉ ops.*1 -> helpeeObjs σ1 !! r = helpeeObjs σ !! r) /\
      (forall r, helpee_member (helpeeObjs σ1 !!! r) = helpee_member (helpeeObjs σ !!! r)) /\
      waitStarts σ1 ops.*1 = ops.*2.
Proof.
  induction ops as [|[s t] ops IH]; intros σ q Hopen Hnd Halloc.
  - exists σ. simpl. rewrite app_nil_r. by destruct q.
  - simpl in Hnd. apply NoDup_cons in Hnd as [Hs Hnd].
    cbn [enqueueAll]. rewrite enqueue_open by done.
    destruct (IH (updHelpee (setWaitStart t) s σ)
                 (set_students (students q ++ [s]) q)) as (σ1 & Hrun & Hhelpers & Hframe & Hmem & Hws).
    { done. }
    { done. }
    { intros r Hr. simpl. apply lookup_alter_is_Some. apply Halloc. simpl.
      apply elem_of_cons. by right. }
    exists σ1. split.
    { rewrite Hrun. simpl. by rewrite <- app_assoc. }
    split; [by rewrite Hhelpers|]. split.
    { intros r Hr. apply not_elem_of_cons in Hr as [Hne Hr].
      rewrite Hframe by done. simpl. by rewrite lookup_alter_ne. }
    split.
    { intros r. rewrite Hmem. simpl. rewrite !lookup_total_alt.
      destruct (decide (r = s)) as [->|Hne].
      - rewrite lookup_alter_eq. by destruct (helpeeObjs σ !! s).
      - by rewrite lookup_alter_ne. }
    unfold waitStarts in *. rewrite !fmap_cons. cbn [fst snd]. rewrite Hws. f_equal.
    rewrite lookup_total_alt, Hframe by done. simpl. rewrite lookup_alter_eq.
    destruct (Halloc s) as [x Hx]; [apply elem_of_cons; by left|].
    by rewrite Hx.
Qed.

(** [k] successive [dequeue] calls by a helper of the queue, with at least [k]
    students waiting: all resolve, the first [k] students leave in list order,
    and their members are appended to the helper's [helpedMembers]. *)
Lemma dequeueTimes_spec (helper : ref) (k : nat) :
  forall (σ : Heap) (q : Queue),
    helper ∈ helpers q ->
    is_Some (helperObjs σ !! helper) ->
    k <= length (students q) ->
    exists σ2,
      dequeueTimes k helper (σ, q)
      = (Resolved tt, (σ2, set_students (drop k (students q)) q)) /\
      helpeeObjs σ2 = helpeeObjs σ /\
      helpedMembers (helperObjs σ2 !!! helper)
      = helpedMembers (helperObjs σ !!! helper)
        ++ ((fun r => helpee_member (helpeeObjs σ !!! r)) <$> take k (students q)).
Proof.
  induction k as [|k IH]; intros σ q Hin Halloc Hk.
  - exists σ. simpl. rewrite app_nil_r. by destruct q.
  - destruct (students q) as [|s rest] eqn:Hst; [simpl in Hk; lia|].
    simpl. unfold dequeue. rewrite bool_decide_eq_true_2 by done. simpl. rewrite Hst.
    destruct (IH (updHelper (pushHelpedMember (helpee_member (helpeeObjs σ !!! s))) helper σ)
                 (set_students rest q)) as (σ2 & Hrun & Hhelpees & Hserved).
    { done. }
    { simpl. by apply lookup_alter_is_Some. }
    { simpl in *. lia. }
    exists σ2. split; [by rewrite Hrun|]. split; [by rewrite Hhelpees|].
    rewrite Hserved. simpl. rewrite (lookup_total_alt (alter _ _ _)), lookup_alter_eq.
    destruct Halloc as [h Hh]. rewrite (lookup_total_alt (helperObjs σ)), Hh. simpl.
    by rewrite <- app_assoc.
Qed.

Lemma waitStarts_same_helpees (σ σ' : Heap) (l : list ref) :
  helpeeObjs σ' = helpeeObjs σ -> waitStarts σ' l = waitStarts σ l.
Proof. intros Heq. unfold waitStarts. by rewrite Heq. Qed.

(** C2, counterexample.  The same student object 0 is enqueued at times 1 and
    3, with student object 1 enqueued at time 2 in between.  All three calls
    resolve; the second stamp overwrites the first on the shared object, so the
    waiting list [0; 1; 0] carries the stamps [3; 2; 3].  The next [dequeue]
    removes the head, stamped 3, while a student stamped 2 is still waiting. *)
Lemma fifo_counterexample :
  exists σ1 q1 σ2 q2,
    enqueueAll [(0, 1%Z); (1, 2%Z); (0, 3%Z)] (Scenarios.heap0, Scenarios.mathOpen)
    = (Resolved tt, (σ1, q1)) /\
    students q1 = [0; 1; 0] /\
    waitStarts σ1 (students q1) = [3%Z; 2%Z; 3%Z] /\
    dequeueTimes 1 10 (σ1, q1) = (Resolved tt, (σ2, q2)) /\
    students q2 = [1; 0] /\
    waitStarts σ2 (students q2) = [2%Z; 3%Z] /\
    helpedMembers (helperObjs σ2 !!! 10) = [Scenarios.alice] /\
    ~ Sorted Z.le (waitStarts σ1 (students q1)).
Proof.
  do 4 eexists. split; [reflexivity|]. split; [reflexivity|].
  split; [vm_compute; reflexivity|]. split; [vm_compute; reflexivity|].
  split; [reflexivity|]. split; [vm_compute; reflexivity|].
  split; [vm_compute; reflexivity|].
  intros Hsorted. apply Sorted_inv in Hsorted as [_ Hhd].
  apply HdRel_inv in Hhd. vm_compute in Hhd. by apply Hhd.
Qed.

(** C2, as the code has it.  Take an Open queue whose waiting list is sorted
    by [waitStart], and a run of [enqueue] calls with non-decreasing clock
    readings, none earlier than the stamps already in the list, on student
    objects none of which is waiting already or enqueued twice.  Every
    call resolves and appends its object at the tail, stamped with the clock
    reading of the call.  Then [k] successive [dequeue] calls by a helper of
    the queue all resolve (they return nothing): they remove the first [k]
    students in list order, append their members in that order to the helper's
    [helpedMembers], the stamps of the removed students are non-decreasing, and
    none exceeds the stamp of a student still waiting. *)
Theorem fifo_order (σ : Heap) (q : Queue) (ops : list (ref * Z)) (helper : ref) (k : nat) :
  isOpen q = true ->
  NoDup ops.*1 ->
  (forall s, s ∈ students q -> s ∉ ops.*1) ->
  (forall s, s ∈ ops.*1 -> is_Some (helpeeObjs σ !! s)) ->
  Sorted Z.le (waitStarts σ (students q) ++ ops.*2) ->
  helper ∈ helpers q ->
  is_Some (helperObjs σ !! helper) ->
  k <= length (students q ++ ops.*1) ->
  exists σ1 q1 σ2 q2,
    enqueueAll ops (σ, q) = (Resolved tt, (σ1, q1)) /\
    students q1 = students q ++ ops.*1 /\
    waitStarts σ1 (students q1) = waitStarts σ (students q) ++ ops.*2 /\
    dequeueTimes k helper (σ1, q1) = (Resolved tt, (σ2, q2)) /\
    students q2 = drop k (students q1) /\
    helpedMembers (helperObjs σ2 !!! helper)
    = helpedMembers (helperObjs σ !!! helper)
      ++ ((fun r => helpee_member (helpeeObjs σ !!! r)) <$> take k (students q1)) /\
    Sorted Z.le (waitStarts σ2 (take k (students q1))) /\
    (forall a b, a ∈ waitStarts σ2 (take k (students q1)) ->
                 b ∈ waitStarts σ2 (students q2) -> (a <= b)%Z).
Proof.
  intros Hopen Hnd Hdisj Halloc Hsorted Hin Hhelper Hk.
  destruct (enqueueAll_spec ops σ q Hopen Hnd Halloc)
    as (σ1 & Hrun & Hhelpers & Hframe & Hmem & Hstamps).
  set (q1 := set_students (students q ++ ops.*1) q) in *.
  assert (Hws : waitStarts σ1 (students q1) = waitStarts σ (students q) ++ ops.*2).
  { unfold q1; simpl. unfold waitStarts at 1. rewrite fmap_app.
    fold (waitStarts σ1 (students q)). fold (waitStarts σ1 ops.*1).
    rewrite Hstamps. f_equal. apply waitStarts_ext.
    intros r Hr. apply Hframe. by apply Hdisj. }
  destruct (dequeueTimes_spec helper k σ1 q1) as (σ2 & Hdeq & Hhelpees & Hserved).
  { done. }
  { by rewrite Hhelpers. }
  { done. }
  assert (Hss : StronglySorted Z.le
                  (waitStarts σ1 (take k (students q1))
                   ++ waitStarts σ1 (drop k (students q1)))).
  { unfold waitStarts. rewrite <- fmap_app, take_drop.
    fold (waitStarts σ1 (students q1)). rewrite Hws.
    by apply Sorted_StronglySorted; [apply _|]. }
  exists σ1, q1, σ2, (set_students (drop k (students q1)) q1).
  split; [done|]. split; [done|]. split; [done|]. split; [done|].
  split; [done|]. split.
  { rewrite Hserved, Hhelpers. f_equal. apply list_fmap_ext. intros _ r _. apply Hmem. }
  rewrite !(waitStarts_same_helpees σ1 σ2) by done. split.
  - apply StronglySorted_Sorted. by eapply StronglySorted_app_1_l.
  - intros a b Ha Hb. by eapply StronglySorted_app_1_elem_of.
Qed.

(** Alice, Bob and Carol join the Open queue "Math" at times 1, 2 and 3; helper
    object 10 then calls [dequeue] twice. *)
Lemma fifo_order_witness :
  exists σ1 q1 σ2 q2,
    enqueueAll [(0, 1%Z); (1, 2%Z); (2, 3%Z)] (Scenarios.heap0, Scenarios.mathOpen)
    = (Resolved tt, (σ1, q1)) /\
    students q1 = students Scenarios.mathOpen ++ [0; 1; 2] /\
    waitStarts σ1 (students q1)
    = waitStarts Scenarios.heap0 (students Scenarios.mathOpen) ++ [1%Z; 2%Z; 3%Z] /\
    dequeueTimes 2 10 (σ1, q1) = (Resolved tt, (σ2, q2)) /\
    students q2 = drop 2 (students q1) /\
    helpedMembers (helperObjs σ2 !!! 10)
    = helpedMembers (helperObjs Scenarios.heap0 !!! 10)
      ++ ((fun r => helpee_member (helpeeObjs Scenarios.heap0 !!! r))
            <$> take 2 (students q1)) /\
    Sorted Z.le (waitStarts σ2 (take 2 (students q1))) /\
    (forall a b, a ∈ waitStarts σ2 (take 2 (students q1)) ->
                 b ∈ waitStarts σ2 (students q2) -> (a <= b)%Z).
Proof.
  apply (fifo_order Scenarios.heap0 Scenarios.mathOpen
                    [(0, 1%Z); (1, 2%Z); (2, 3%Z)] 10 2).
  - reflexivity.
  - compute_done.
  - intros s Hs. by apply elem_of_nil in Hs.
  - intros s Hs. simpl in Hs.
    repeat (apply elem_of_cons in Hs as [->|Hs]; [compute_done|]).
    by apply elem_of_nil in Hs.
  - compute_done.
  - compute_done.
  - compute_done.
  - simpl. lia.
Defined.

End HelpQueueV2_Properties.

(** * Properties of the server orchestrator (class AttendingServerV2) *)

Module AttendingServerV2_Properties.
Import AttendingServerV2.

(** *** Positions in the queue array *)

Lemma elem_of_indexed (queues : list Queue) (i : nat) (q : Queue) :
  (i, q) ∈ indexed queues <-> queues !! i = Some q.
Proof.
  unfold indexed. rewrite elem_of_lookup_imap. split.
  - intros (j & y & Heq & Hj). by inversion Heq; subst.
  - intros Hi. by exists i, q.
Qed.

Lemma elem_of_filter_bool {A : Type} (p : A -> bool) (l : list A) (x : A) :
  x ∈ List.filter p l <-> x ∈ l /\ p x = true.
Proof. rewrite !list_elem_of_In. apply filter_In. Qed.

Lemma elem_of_nonEmptyQueues (helperMember : GuildMember) (queues : list Queue)
    (i : nat) (q : Queue) :
  (i, q) ∈ nonEmptyQueues helperMember queues <->
  queues !! i = Some q /\ helpersHas helperMember q = true /\
  currentlyOpen q = true /\ students q <> [].
Proof.
  unfold nonEmptyQueues, currentlyHelpingChannels.
  rewrite !elem_of_filter_bool, elem_of_indexed. simpl.
  rewrite andb_true_iff, negb_true_iff, Nat.eqb_neq. unfold length_.
  split.
  - intros [[Hi Hh] [Ho Hl]]. repeat split; try done.
    intros Hnil. by rewrite Hnil in Hl.
  - intros (Hi & Hh & Ho & Hl). repeat split; try done.
    by destruct (students q).
Qed.

Lemma length_eqb_0 {A : Type} (l : list A) : (length l =? 0)%nat = true <-> l = [].
Proof. destruct l; simpl; split; done. Qed.

(** *** The reduce that picks the queue to dequeue from *)

(** Over queues that all have a first student, the [reduce] returns an entry
    whose first student has waited at least as long as every earlier entry's
    and strictly longer than every later entry's: the minimal [waitStart], and
    among equal ones the last in array order. *)
Lemma reduce_olderFirst (x : nat * Queue) (xs : list (nat * Queue)) :
  Forall (fun c => is_Some (firstWaitStart c.2)) (x :: xs) ->
  exists pre sel post t,
    reduce olderFirst (x :: xs) = Some sel /\
    x :: xs = pre ++ sel :: post /\
    firstWaitStart sel.2 = Some t /\
    (forall c u, c ∈ pre -> firstWaitStart c.2 = Some u -> (t <= u)%Z) /\
    (forall c u, c ∈ post -> firstWaitStart c.2 = Some u -> (t < u)%Z).
Proof.
  simpl. induction xs as [|c xs IH] using rev_ind; intros Hall.
  - apply Forall_cons in Hall as [[t Ht] _].
    exists [], x, [], t. simpl. repeat split; try done.
    + intros c u Hc. by apply elem_of_nil in Hc.
    + intros c u Hc. by apply elem_of_nil in Hc.
  - rewrite app_comm_cons in Hall. apply Forall_app in Hall as [Hall Hc].
    apply Forall_singleton in Hc as [u Hu].
    destruct (IH Hall) as (pre & sel & post & t & Hred & Hsplit & Ht & Hpre & Hpost).
    rewrite foldl_snoc. injection Hred as Hred. rewrite Hred.
    unfold olderFirst. rewrite Ht, Hu.
    destruct (Z.ltb_spec t u) as [Hlt|Hge].
    + exists pre, sel, (post ++ [c]), t. repeat split; try done.
      * rewrite app_comm_cons, Hsplit. by rewrite <- app_assoc.
      * intros c' u' [Hc'|Hc']%elem_of_app Hu'; [by eapply Hpost|].
        apply elem_of_cons in Hc' as [->|Hc']; [|by apply elem_of_nil in Hc'].
        by simplify_eq.
    + exists (pre ++ sel :: post), c, [], u. repeat split; try done.
      * rewrite app_comm_cons, Hsplit. done.
      * intros c' u' [Hc'|Hc']%elem_of_app Hu'.
        { specialize (Hpre c' u' Hc' Hu'). lia. }
        apply elem_of_cons in Hc' as [->|Hc'].
        { simplify_eq. lia. }
        specialize (Hpost c' u' Hc' Hu'). lia.
      * intros c' u' Hc'. by apply elem_of_nil in Hc'.
Qed.

(** The entries of a filtered [indexed] array keep their array order. *)
Lemma StronglySorted_filter_bool {A : Type} (R : relation A) (p : A -> bool) (l : list A) :
  StronglySorted R l -> StronglySorted R (List.filter p l).
Proof.
  induction 1 as [|x l Hl IH Hx]; simpl; [constructor|].
  destruct (p x); [|done]. constructor; [done|].
  apply Forall_forall. intros y [Hy _]%elem_of_filter_bool.
  by eapply Forall_forall in Hx.
Qed.

Lemma imap_offset_sorted (queues : list Queue) (k : nat) :
  StronglySorted (fun a b : nat * Queue => a.1 < b.1)
                 (imap (fun i q => (k + i, q)) queues).
Proof.
  revert k. induction queues as [|q queues IH]; intros k; [constructor|].
  rewrite imap_cons. constructor.
  - rewrite (imap_ext _ (fun i q => (S k + i, q))) by (intros; simpl; f_equal; lia).
    apply IH.
  - apply Forall_forall. intros b (i & y & -> & _)%elem_of_lookup_imap. simpl. lia.
Qed.

Lemma nonEmptyQueues_sorted (helperMember : GuildMember) (queues : list Queue) :
  StronglySorted (fun a b : nat * Queue => a.1 < b.1)
                 (nonEmptyQueues helperMember queues).
Proof.
  unfold nonEmptyQueues, currentlyHelpingChannels.
  do 2 apply StronglySorted_filter_bool. apply (imap_offset_sorted queues 0).
Qed.

Lemma dequeueWithHelper_candidate (helperMember : GuildMember) (q : Queue)
    (student : Helpee) (rest : list Helpee) :
  helpersHas helperMember q = true ->
  students q = student :: rest ->
  exists q', dequeueWithHelper helperMember q = (Resolved student, q') /\
             students q' = rest /\ name q' = name q /\
             currentlyOpen q' = currentlyOpen q.
Proof.
  intros Hhas Hst. unfold helpersHas in Hhas.
  apply bool_decide_eq_true in Hhas as [h Hh].
  unfold dequeueWithHelper. rewrite Hh, Hst. by eexists.
Qed.

Lemma nonEmptyQueues_hosting (helperMember : GuildMember) (queues : list Queue) :
  nonEmptyQueues helperMember queues <> [] ->
  currentlyHelpingChannels helperMember queues <> [].
Proof. unfold nonEmptyQueues. intros Hne Hnil. by rewrite Hnil in Hne. Qed.

(** [dequeueFirst] without a queue argument, once the helper passes the hosting
    and voice-channel checks and the [reduce] has picked entry [(i, q)]. *)
Lemma dequeueFirst_run (helperMember : GuildMember) (vc : string) (queues : list Queue)
    (i : nat) (q : Queue) :
  voice helperMember = Some vc ->
  reduce olderFirst (nonEmptyQueues helperMember queues) = Some (i, q) ->
  dequeueFirst helperMember None queues
  = match dequeueWithHelper helperMember q with
    | (Resolved student, q') => (Resolved student, <[i := q']> queues)
    | (Rejected e, q') => (Rejected (QueueErr e), <[i := q']> queues)
    end.
Proof.
  intros Hvoice Hred.
  assert (Hne : nonEmptyQueues helperMember queues <> []).
  { intros Hnil. by rewrite Hnil in Hred. }
  pose proof (nonEmptyQueues_hosting _ _ Hne) as Hhost.
  unfold dequeueFirst.
  destruct (length (currentlyHelpingChannels helperMember queues) =? 0)%nat eqn:E1.
  { by apply length_eqb_0 in E1. }
  rewrite Hvoice.
  destruct (length (nonEmptyQueues helperMember queues) =? 0)%nat eqn:E2.
  { by apply length_eqb_0 in E2. }
  by rewrite Hred.
Qed.

(** *** dequeueFirst: the checks before the selection *)

(** C10.  Without a queue argument, [dequeueFirst] rejects with "You are not
    currently hosting." when no queue has the helper among its helpers, and
    otherwise with "You need to be in a voice channel first." when the helper
    is in no voice channel.  Either way no queue is touched, whatever the
    queues hold: an Open, non-empty queue the helper hosts is left as it is. *)
Theorem dequeueFirst_preconditions (helperMember : GuildMember) (queues : list Queue) :
  currentlyHelpingChannels helperMember queues = [] \/ voice helperMember = None ->
  dequeueFirst helperMember None queues
  = (Rejected (ServerError
       match currentlyHelpingChannels helperMember queues with
       | [] => "You are not currently hosting."
       | _ :: _ => "You need to be in a voice channel first."
       end%string),
     queues).
Proof.
  intros Hpre. unfold dequeueFirst.
  destruct (currentlyHelpingChannels helperMember queues) as [|c cs] eqn:Hhost; [done|].
  destruct Hpre as [Hnil|Hvoice]; [done|]. simpl. by rewrite Hvoice.
Qed.

(** Tina hosts "Math" and "Physics", both Open with a student waiting, but she
    is in no voice channel. *)
Lemma dequeueFirst_preconditions_witness :
  nonEmptyQueues Scenarios.tinaNoVoice [Scenarios.math; Scenarios.physics]
  = [(0, Scenarios.math); (1, Scenarios.physics)] /\
  dequeueFirst Scenarios.tinaNoVoice None [Scenarios.math; Scenarios.physics]
  = (Rejected (ServerError "You need to be in a voice channel first."),
     [Scenarios.math; Scenarios.physics]).
Proof.
  split; [vm_compute; reflexivity|].
  apply (dequeueFirst_preconditions Scenarios.tinaNoVoice
           [Scenarios.math; Scenarios.physics]).
  right. reflexivity.
Defined.

(** *** dequeueFirst: the selection across queues *)

(** C3, counterexample.  Tina hosts the Open queues "Math" and "Physics", each
    with a student waiting, but is in no voice channel: the call rejects and
    nobody is dequeued.  Omar hosts no queue, so his candidate set is empty:
    the call rejects with "You are not currently hosting.", not with the
    nothing-to-serve message. *)
Lemma dequeueFirst_counterexample :
  nonEmptyQueues Scenarios.tinaNoVoice [Scenarios.math; Scenarios.physics]
  = [(0, Scenarios.math); (1, Scenarios.physics)] /\
  dequeueFirst Scenarios.tinaNoVoice None [Scenarios.math; Scenarios.physics]
  = (Rejected (ServerError "You need to be in a voice channel first."),
     [Scenarios.math; Scenarios.physics]) /\
  nonEmptyQueues Scenarios.omar [Scenarios.math; Scenarios.physics] = [] /\
  dequeueFirst Scenarios.omar None [Scenarios.math; Scenarios.physics]
  = (Rejected (ServerError "You are not currently hosting."),
     [Scenarios.math; Scenarios.physics]).
Proof. repeat split; vm_compute; reflexivity. Qed.

(** C3, as the code has it.  Let the helper be in a voice channel and host at
    least one queue, and let the candidates be the queues that have the helper
    among their helpers, are Open and are non-empty, in array order.
    - With no candidate the call rejects with "There's no one left to help.
      You should get some coffee!" and no queue changes.
    - Otherwise the call dequeues from one candidate, at position [i] of the
      array: its first student has waited at least as long as the first
      student of every candidate before it in the array and strictly longer
      than that of every candidate after it.  That student is returned and
      leaves that queue; every other queue is as before.
    - With exactly two candidates, A before B in the array, with first
      students waiting since T1 and T2: the call dequeues from A if T1 < T2
      and from B otherwise, so a tie goes to B. *)
Theorem dequeueFirst_selects (helperMember : GuildMember) (vc : string)
    (queues : list Queue) :
  voice helperMember = Some vc ->
  currentlyHelpingChannels helperMember queues <> [] ->
  (nonEmptyQueues helperMember queues = [] ->
   dequeueFirst helperMember None queues
   = (Rejected (ServerError "There's no one left to help. You should get some coffee!"),
      queues)) /\
  (nonEmptyQueues helperMember queues <> [] ->
   exists pre i q post student rest q',
     nonEmptyQueues helperMember queues = pre ++ (i, q) :: post /\
     queues !! i = Some q /\
     students q = student :: rest /\
     (forall c u, c ∈ pre -> firstWaitStart c.2 = Some u -> (waitStart student <= u)%Z) /\
     (forall c u, c ∈ post -> firstWaitStart c.2 = Some u -> (waitStart student < u)%Z) /\
     dequeueWithHelper helperMember q = (Resolved student, q') /\
     students q' = rest /\
     dequeueFirst helperMember None queues = (Resolved student, <[i := q']> queues)) /\
  (forall iA A iB B T1 T2,
     nonEmptyQueues helperMember queues = [(iA, A); (iB, B)] ->
     firstWaitStart A = Some T1 ->
     firstWaitStart B = Some T2 ->
     iA < iB /\
     exists student q',
       dequeueWithHelper helperMember (if (T1 <? T2)%Z then A else B)
       = (Resolved student, q') /\
       dequeueFirst helperMember None queues
       = (Resolved student, <[(if (T1 <? T2)%Z then iA else iB) := q']> queues)).
Proof.
  intros Hvoice Hhost. split; [|split].
  - intros Hnil. unfold dequeueFirst.
    destruct (length (currentlyHelpingChannels helperMember queues) =? 0)%nat eqn:E1.
    { by apply length_eqb_0 in E1. }
    by rewrite Hvoice, Hnil.
  - intros Hne.
    destruct (nonEmptyQueues helperMember queues) as [|x xs] eqn:Hcands; [done|].
    assert (Hheads : Forall (fun c : nat * Queue => is_Some (firstWaitStart c.2)) (x :: xs)).
    { apply Forall_forall. intros [j c] Hc. rewrite <- Hcands in Hc.
      apply elem_of_nonEmptyQueues in Hc as (_ & _ & _ & Hst). simpl.
      unfold firstWaitStart, first. destruct (students c); [done|]. by eexists. }
    destruct (reduce_olderFirst x xs Hheads)
      as (pre & [i q] & post & t & Hred & Hsplit & Ht & Hpre & Hpost).
    assert (Hsel : (i, q) ∈ nonEmptyQueues helperMember queues).
    { rewrite Hcands, Hsplit. apply elem_of_app. right. apply elem_of_cons. by left. }
    apply elem_of_nonEmptyQueues in Hsel as (Hi & Hhas & _ & Hst).
    destruct (students q) as [|student rest] eqn:Hstudents; [done|].
    destruct (dequeueWithHelper_candidate _ _ _ _ Hhas Hstudents) as (q' & Hdeq & Hrest & _).
    assert (t = waitStart student) as ->.
    { simpl in Ht. unfold firstWaitStart, first in Ht. rewrite Hstudents in Ht.
      by injection Ht. }
    exists pre, i, q, post, student, rest, q'.
    split; [done|]. split; [done|]. split; [done|]. split; [done|]. split; [done|].
    split; [done|]. split; [done|].
    rewrite (dequeueFirst_run helperMember vc queues i q Hvoice) by (by rewrite Hcands).
    by rewrite Hdeq.
  - intros iA A iB B T1 T2 Hcands HT1 HT2. split.
    { pose proof (nonEmptyQueues_sorted helperMember queues) as Hs.
      rewrite Hcands in Hs. apply StronglySorted_inv in Hs as [_ Hs].
      by apply Forall_cons in Hs as [Hs _]. }
    assert (Hin : (if (T1 <? T2)%Z then (iA, A) else (iB, B))
                  ∈ nonEmptyQueues helperMember queues).
    { rewrite Hcands. destruct (T1 <? T2)%Z.
      - apply elem_of_cons. by left.
      - apply elem_of_cons. right. apply elem_of_cons. by left. }
    assert (Hred : reduce olderFirst (nonEmptyQueues helperMember queues)
                   = Some (if (T1 <? T2)%Z then (iA, A) else (iB, B))).
    { rewrite Hcands. simpl. unfold olderFirst. simpl. by rewrite HT1, HT2. }
    destruct (T1 <? T2)%Z.
    + apply elem_of_nonEmptyQueues in Hin as (_ & Hhas & _ & Hst).
      destruct (students A) as [|student rest] eqn:Hstudents; [done|].
      destruct (dequeueWithHelper_candidate _ _ _ _ Hhas Hstudents) as (q' & Hdeq & _).
      exists student, q'. split; [done|].
      rewrite (dequeueFirst_run helperMember vc queues iA A Hvoice Hred). by rewrite Hdeq.
    + apply elem_of_nonEmptyQueues in Hin as (_ & Hhas & _ & Hst).
      destruct (students B) as [|student rest] eqn:Hstudents; [done|].
      destruct (dequeueWithHelper_candidate _ _ _ _ Hhas Hstudents) as (q' & Hdeq & _).
      exists student, q'. split; [done|].
      rewrite (dequeueFirst_run helperMember vc queues iB B Hvoice Hred). by rewrite Hdeq.
Qed.

(** Tina, in voice channel "vc1", hosts "Math" (Alice waiting since 5) and
    "Physics" (Bob waiting since 3): Bob is next. *)
Lemma dequeueFirst_selects_witness :
  exists student q',
    dequeueWithHelper Scenarios.tina Scenarios.physics = (Resolved student, q') /\
    student = mkHelpee 3 Scenarios.bob /\
    dequeueFirst Scenarios.tina None [Scenarios.math; Scenarios.physics]
    = (Resolved student, [Scenarios.math; q']).
Proof.
  destruct (dequeueFirst_selects Scenarios.tina "vc1" [Scenarios.math; Scenarios.physics])
    as (_ & _ & Htwo).
  - reflexivity.
  - vm_compute. discriminate.
  - destruct (Htwo 0 Scenarios.math 1 Scenarios.physics 5%Z 3%Z)
      as (_ & student & q' & Hdeq & Hrun).
    + vm_compute. reflexivity.
    + reflexivity.
    + reflexivity.
    + exists student, q'. split; [exact Hdeq|]. split; [|exact Hrun].
      vm_compute in Hdeq. by injection Hdeq.
Defined.

(** *** Bulk operations: one call per selected queue *)

Lemma mapSelected_queues {A : Type} (sel : Queue -> bool)
    (op : Queue -> Completion QueueError A * Queue) (queues : list Queue) :
  (mapSelected sel op queues).2 = (fun q => if sel q then (op q).2 else q) <$> queues.
Proof.
  induction queues as [|q queues IH]; [done|]. simpl.
  destruct (mapSelected sel op queues) as [results rest]. simpl in IH.
  destruct (sel q); [destruct (op q)|]; simpl; by rewrite IH.
Qed.

Lemma mapSelected_results {A : Type} (sel : Queue -> bool)
    (op : Queue -> Completion QueueError A * Queue) (queues : list Queue) :
  (mapSelected sel op queues).1 = (fun q => (op q).1) <$> List.filter sel queues.
Proof.
  induction queues as [|q queues IH]; [done|]. simpl.
  destruct (mapSelected sel op queues) as [results rest]. simpl in IH.
  destruct (sel q); simpl; [destruct (op q); simpl|]; by rewrite IH.
Qed.

Lemma Promise_all_openQueue (helperMember : GuildMember) (now : Z) (queues : list Queue) :
  match Promise_all ((fun q => (openQueue helperMember now q).1) <$> queues) with
  | Resolved _ => existsb currentlyOpen queues = false
  | Rejected _ => existsb currentlyOpen queues = true
  end.
Proof.
  induction queues as [|q queues IH]; [done|].
  rewrite fmap_cons. simpl. unfold openQueue at 1.
  destruct (currentlyOpen q); simpl; [done|].
  by destruct (Promise_all _).
Qed.

(** *** openAllOpenableQueues *)

(** C8, counterexample.  Tina holds the class roles "Math" and "Physics";
    "Math" is already Open and "Physics" is Closed.  The call rejects with
    "You are already hosting."; "Physics" has been opened all the same. *)
Lemma openAllOpenableQueues_counterexample :
  exists physics',
    openAllOpenableQueues Scenarios.tina 7 [Scenarios.math; Scenarios.physicsClosed]
    = (Rejected (ServerError "You are already hosting."), [Scenarios.math; physics']) /\
    currentlyOpen Scenarios.math = true /\
    currentlyOpen Scenarios.physicsClosed = false /\
    currentlyOpen physics' = true.
Proof. eexists. repeat split; vm_compute; reflexivity. Qed.

(** C8, as the code has it.  [openAllOpenableQueues] calls [openQueue] on every
    queue whose name is the name of one of the helper's roles.  With no such
    queue it rejects with the no-class-roles message and changes nothing.
    Otherwise every such queue runs its [openQueue]; if one of them was already
    Open the whole call rejects with "You are already hosting." (that queue is
    not skipped), and else it resolves with no value: no count is reported.
    In both cases the queues that were Closed have been opened and all other
    queues are as before. *)
Theorem openAllOpenableQueues_outcome (helperMember : GuildMember) (now : Z)
    (queues : list Queue) :
  openAllOpenableQueues helperMember now queues
  = match List.filter (hasRoleNamed helperMember) queues with
    | [] => (Rejected (ServerError noClassRoles), queues)
    | openableQueues =>
        (if existsb currentlyOpen openableQueues
         then Rejected (ServerError "You are already hosting.")
         else Resolved tt,
         (fun q =>
            if hasRoleNamed helperMember q && negb (currentlyOpen q)
            then mkQueue (name q)
                         (<[member_id helperMember :=
                              match helpers q !! member_id helperMember with
                              | Some h => setHelpStart now h
                              | None => mkHelper now None [] helperMember
                              end]> (helpers q))
                         (students q) true
            else q) <$> queues)
    end.
Proof.
  unfold openAllOpenableQueues.
  pose proof (mapSelected_queues (hasRoleNamed helperMember)
                (openQueue helperMember now) queues) as Hqs.
  pose proof (mapSelected_results (hasRoleNamed helperMember)
                (openQueue helperMember now) queues) as Hrs.
  pose proof (Promise_all_openQueue helperMember now
                (List.filter (hasRoleNamed helperMember) queues)) as Hall.
  destruct (mapSelected _ _ queues) as [results queues']. simpl in Hqs, Hrs. subst.
  destruct (List.filter (hasRoleNamed helperMember) queues) as [|q0 qs0] eqn:Hopenable;
    [done|].
  cbn [length Nat.eqb].
  assert (Hmap : ((fun q => if hasRoleNamed helperMember q
                            then (openQueue helperMember now q).2 else q) <$> queues)
                 = ((fun q =>
                       if hasRoleNamed helperMember q && negb (currentlyOpen q)
                       then mkQueue (name q)
                              (<[member_id helperMember :=
                                   match helpers q !! member_id helperMember with
                                   | Some h => setHelpStart now h
                                   | None => mkHelper now None [] helperMember
                                   end]> (helpers q))
                              (students q) true
                       else q) <$> queues)).
  { apply list_fmap_ext. intros _ q _. unfold openQueue.
    destruct (hasRoleNamed helperMember q), (currentlyOpen q); done. }
  rewrite Hmap.
  destruct (Promise_all _); by rewrite Hall.
Qed.

(** *** closeAllClosableQueues *)

(** The [reduce] over the closed sessions keeps its first element as long as
    that session ended after each later session started, whatever the
    lengths of the sessions. *)
Lemma reduce_pickHelpTime_first (x : RequiredHelper) (xs : list RequiredHelper) :
  Forall (fun curr => (r_helpStart curr < r_helpEnd x)%Z) xs ->
  reduce pickHelpTime (x :: xs) = Some x.
Proof.
  simpl. intros Hall. f_equal.
  induction Hall as [|curr xs Hcurr _ IH]; [done|]. simpl.
  unfold pickHelpTime at 2.
  destruct (Z.gtb_spec (r_helpEnd x) (r_helpStart curr)) as [_|Hle]; [done|lia].
Qed.

(** C7, at a failing input.  Tina opens "Physics" at time 0 while holding only
    that class role; at time 90, now holding both roles, she calls
    [openAllOpenableQueues] again, which rejects but opens "Math"; at time 100
    she calls [closeAllClosableQueues].  The two closed sessions last 10
    ("Math") and 100 ("Physics") milliseconds, and the call returns the "Math"
    session, the shorter one. *)
Theorem closeAllClosableQueues_not_argmax :
  exists queues1 queues2 queues3 sessionMath sessionPhysics,
    openAllOpenableQueues Scenarios.tinaPhysicsOnly 0
      [Scenarios.mathFresh; Scenarios.physicsFresh]
    = (Resolved tt, queues1) /\
    openAllOpenableQueues Scenarios.tina 90 queues1
    = (Rejected (ServerError "You are already hosting."), queues2) /\
    closedSessions Scenarios.tina 100 queues2 = Resolved [sessionMath; sessionPhysics] /\
    helpTime sessionMath = 10%Z /\
    helpTime sessionPhysics = 100%Z /\
    closeAllClosableQueues Scenarios.tina 100 queues2 = (Resolved sessionMath, queues3).
Proof. do 5 eexists. repeat split; vm_compute; reflexivity. Qed.

(** *** announceToStudentsInQueue *)


(** C9, at a failing input.  Tina hosts "Math" (Alice waiting) and "Physics"
    (Bob waiting) and announces "Exam moved" in "Math".  Alice is sent the
    announcement for "Math", and then Alice and Bob are both sent the plain
    announcement: Bob, who waits only in "Physics", receives it. *)
Theorem announce_reaches_other_queue :
  announceToStudentsInQueue Scenarios.tina "Exam moved" (Some Scenarios.mathChannel)
    [Scenarios.math; Scenarios.physics]
  = (Resolved tt,
     [ mkDM Scenarios.alice
            (SimpleEmbed "Staff member Tina announced: Exam moved" (Some NeedName)
                         (Some "In queue: Math"%string));
       mkDM Scenarios.alice (SimpleEmbed "Exam moved" None None);
       mkDM Scenarios.bob (SimpleEmbed "Exam moved" None None) ]) /\
  helpee_member <$> students Scenarios.math = [Scenarios.alice] /\
  helpee_member <$> students Scenarios.physics = [Scenarios.bob].
Proof. repeat split; vm_compute; reflexivity. Qed.

End AttendingServerV2_Properties.

(** * Runs of calls on one queue (help-queue.ts) *)

Module HelpQueueV2_Runs.
Import HelpQueueV2 HelpQueueV2_Properties.

Lemma set_isOpen_id (q : Queue) : set_isOpen (isOpen q) q = q.
Proof. by destruct q. Qed.

Lemma set_students_id (q : Queue) : set_students (students q) q = q.
Proof. by destruct q. Qed.

(** *** The open flag *)

Lemma call_open_stays_open (c : Call) (σ : Heap) (q : Queue) :
  isOpen q = true ->
  isOpen (call c (σ, q)).2.2 = true /\
  (isCloseQueueCall c = true -> (call c (σ, q)).1 = Rejected (NotHosting q)).
Proof.
  intros Hopen. destruct c as [now|now|student now|helper]; simpl.
  - by rewrite Hopen.
  - by rewrite Hopen.
  - by rewrite Hopen.
  - destruct (bool_decide (helper ∈ helpers q)); simpl; [|done].
    by destruct (students q).
Qed.

(** X1.  Once a queue is Open, no sequence of [openQueue], [closeQueue],
    [enqueue] and [dequeue] calls makes it Closed again: the queue is Open
    after the run and not one [closeQueue] of the run has resolved. *)
Theorem run_open_stays_open (calls : list Call) (σ : Heap) (q : Queue) :
  isOpen q = true ->
  isOpen (run calls (σ, q)).2.2 = true /\
  resolvedCalls isCloseQueueCall calls (run calls (σ, q)).1 = 0.
Proof.
  revert σ q. induction calls as [|c calls IH]; intros σ q Hopen; [done|].
  destruct (call_open_stays_open c σ q Hopen) as [Hstill Hclose].
  cbn [run]. destruct (call c (σ, q)) as [r [σ1 q1]] eqn:Hcall.
  simpl in Hstill, Hclose.
  destruct (IH σ1 q1 Hstill) as [IH1 IH2].
  destruct (run calls (σ1, q1)) as [rs w2]. simpl in *.
  split; [done|]. rewrite IH2.
  destruct (isCloseQueueCall c); [|done]. by rewrite Hclose.
Qed.

Lemma run_open_stays_open_witness :
  isOpen (run [CallCloseQueue 5; CallDequeue 10; CallCloseQueue 6]
              (Scenarios.heap0, Scenarios.mathOpenAlice)).2.2 = true /\
  resolvedCalls isCloseQueueCall [CallCloseQueue 5; CallDequeue 10; CallCloseQueue 6]
    (run [CallCloseQueue 5; CallDequeue 10; CallCloseQueue 6]
         (Scenarios.heap0, Scenarios.mathOpenAlice)).1 = 0.
Proof.
  apply (run_open_stays_open [CallCloseQueue 5; CallDequeue 10; CallCloseQueue 6]
           Scenarios.heap0 Scenarios.mathOpenAlice).
  reflexivity.
Defined.

(** *** While the queue is Closed *)

(** X2.  On a Closed queue, a run of calls without an [openQueue] leaves the
    queue Closed and lets nobody join: every [enqueue] is rejected, no student
    object is written to, and the waiting list afterwards is a suffix of the
    one before (students can only have been dequeued). *)
Theorem run_closed_nobody_joins (calls : list Call) (σ : Heap) (q : Queue) :
  isOpen q = false ->
  Forall (fun c => isOpenQueueCall c = false) calls ->
  isOpen (run calls (σ, q)).2.2 = false /\
  students (run calls (σ, q)).2.2 `suffix_of` students q /\
  helpeeObjs (run calls (σ, q)).2.1 = helpeeObjs σ /\
  resolvedCalls isEnqueueCall calls (run calls (σ, q)).1 = 0.
Proof.
  revert σ q. induction calls as [|c calls IH]; intros σ q Hclosed Hcalls; [done|].
  apply Forall_cons in Hcalls as [Hc Hcalls].
  assert (Hstep : isOpen (call c (σ, q)).2.2 = false /\
                  students (call c (σ, q)).2.2 `suffix_of` students q /\
                  helpeeObjs (call c (σ, q)).2.1 = helpeeObjs σ /\
                  (isEnqueueCall c = true -> isResolved (call c (σ, q)).1 = false)).
  { destruct c as [now|now|student now|helper]; simpl in *.
    - done.
    - rewrite Hclosed. simpl. repeat split; try done.
      apply forEachHelper_helpees.
    - by rewrite Hclosed.
    - destruct (bool_decide (helper ∈ helpers q)); simpl; [|done].
      destruct (students q) as [|s rest] eqn:Hst; simpl; repeat split; try done.
      + by rewrite Hst.
      + by apply suffix_cons_r. }
  destruct Hstep as (H1 & H2 & H3 & H4).
  cbn [run]. destruct (call c (σ, q)) as [r [σ1 q1]]. simpl in H1, H2, H3, H4.
  destruct (IH σ1 q1 H1 Hcalls) as (I1 & I2 & I3 & I4).
  destruct (run calls (σ1, q1)) as [rs [σ2 q2]]. simpl in *.
  split; [done|]. split; [by etrans|]. split; [congruence|].
  rewrite I4. destruct (isEnqueueCall c); [|done]. by rewrite H4.
Qed.

Lemma run_closed_nobody_joins_witness :
  isOpen (run [CallEnqueue 1 5; CallDequeue 10; CallCloseQueue 6; CallEnqueue 2 7]
              (Scenarios.heap0, Scenarios.mathClosedAlice)).2.2 = false /\
  students (run [CallEnqueue 1 5; CallDequeue 10; CallCloseQueue 6; CallEnqueue 2 7]
                (Scenarios.heap0, Scenarios.mathClosedAlice)).2.2
    `suffix_of` students Scenarios.mathClosedAlice /\
  helpeeObjs (run [CallEnqueue 1 5; CallDequeue 10; CallCloseQueue 6; CallEnqueue 2 7]
                  (Scenarios.heap0, Scenarios.mathClosedAlice)).2.1
  = helpeeObjs Scenarios.heap0 /\
  resolvedCalls isEnqueueCall
    [CallEnqueue 1 5; CallDequeue 10; CallCloseQueue 6; CallEnqueue 2 7]
    (run [CallEnqueue 1 5; CallDequeue 10; CallCloseQueue 6; CallEnqueue 2 7]
         (Scenarios.heap0, Scenarios.mathClosedAlice)).1 = 0.
Proof.
  apply (run_closed_nobody_joins
           [CallEnqueue 1 5; CallDequeue 10; CallCloseQueue 6; CallEnqueue 2 7]
           Scenarios.heap0 Scenarios.mathClosedAlice).
  - reflexivity.
  - repeat constructor.
Defined.

(** *** The length of the waiting list *)

Lemma call_rejected_unchanged (c : Call) (w : World) (e : QueueError) (w' : World) :
  call c w = (Rejected e, w') -> w' = w.
Proof.
  destruct w as [σ q]. destruct c as [now|now|student now|helper]; simpl.
  - destruct (isOpen q); by intros [= <-].
  - destruct (isOpen q); by intros [= <-].
  - destruct (isOpen q); simpl; by intros [= <-].
  - destruct (bool_decide (helper ∈ helpers q)); simpl; [|by intros [= <-]].
    destruct (students q); by intros [= <-].
Qed.

Lemma call_resolved_length (c : Call) (w : World) (u : unit) (w' : World) :
  call c w = (Resolved u, w') ->
  length (students w'.2) + (if isDequeueCall c then 1 else 0)
  = length (students w.2) + (if isEnqueueCall c then 1 else 0).
Proof.
  destruct w as [σ q]. destruct c as [now|now|student now|helper]; simpl.
  - destruct (isOpen q); intros Heq; inversion Heq; subst; simpl; lia.
  - destruct (isOpen q); intros Heq; inversion Heq; subst; simpl; lia.
  - destruct (isOpen q); simpl; intros Heq; inversion Heq; subst; simpl.
    rewrite length_app. simpl. lia.
  - destruct (bool_decide (helper ∈ helpers q)); simpl; [|done].
    destruct (students q) eqn:Hst; intros Heq; inversion Heq; subst; simpl. lia.
Qed.

(** X3.  Over any run of calls, whether their renderings resolve or reject,
    the waiting list grows by one for every [enqueue] that got past its guard
    and shrinks by one for every [dequeue] that got past its guards, and by
    nothing else: a call that throws its [QueueError], [openQueue] and
    [closeQueue] never add or drop a student, while an [enqueue] or [dequeue]
    whose rendering rejects has already changed the list. *)
Theorem runAwaited_length_balance (calls : list (Call * bool)) (σ : Heap) (q : Queue) :
  length (students (runAwaited calls (σ, q)).2.2)
  + callsPastGuards isDequeueCall calls (runAwaited calls (σ, q)).1
  = length (students q)
    + callsPastGuards isEnqueueCall calls (runAwaited calls (σ, q)).1.
Proof.
  revert σ q. induction calls as [|[c renderResolves] calls IH]; intros σ q; [done|].
  assert (Hstep : length (students (callAwaited c renderResolves (σ, q)).2.2)
                  + (if isDequeueCall c
                        && pastGuards (callAwaited c renderResolves (σ, q)).1
                     then 1 else 0)
                  = length (students q)
                    + (if isEnqueueCall c
                          && pastGuards (callAwaited c renderResolves (σ, q)).1
                       then 1 else 0)).
  { unfold callAwaited. destruct (call c (σ, q)) as [[u|e] w'] eqn:Hcall.
    - pose proof (call_resolved_length _ _ _ _ Hcall) as Hlen. simpl in Hlen.
      destruct renderResolves; simpl; rewrite !andb_true_r; exact Hlen.
    - apply call_rejected_unchanged in Hcall as ->. simpl. by rewrite !andb_false_r. }
  cbn [runAwaited].
  destruct (callAwaited c renderResolves (σ, q)) as [r [σ1 q1]]. simpl in Hstep.
  specialize (IH σ1 q1).
  destruct (runAwaited calls (σ1, q1)) as [rs [σ2 q2]]. simpl in *. lia.
Qed.

(** *** Dequeueing past the end *)

(** X4.  A helper of the queue who calls [dequeue] more often than students
    are waiting is served every waiting student, in list order, and the first
    call after the last student rejects with "There's no one in the queue"
    on the emptied waiting list.  Whether the queue is Open plays no part. *)
Theorem dequeue_past_the_end (helper : ref) (n : nat) :
  forall (σ : Heap) (q : Queue),
    helper ∈ helpers q ->
    is_Some (helperObjs σ !! helper) ->
    length (students q) < n ->
    exists σ',
      dequeueTimes n helper (σ, q) = (Rejected (NoOneInQueue q), (σ', set_students [] q)) /\
      helpeeObjs σ' = helpeeObjs σ /\
      helpedMembers (helperObjs σ' !!! helper)
      = helpedMembers (helperObjs σ !!! helper)
        ++ ((fun r => helpee_member (helpeeObjs σ !!! r)) <$> students q).
Proof.
  induction n as [|n IH]; intros σ q Hin Halloc Hn; [lia|].
  cbn [dequeueTimes]. unfold dequeue. rewrite bool_decide_eq_true_2 by done. simpl.
  destruct (students q) as [|s rest] eqn:Hst.
  - exists σ.
    replace (set_students [] q) with q by (by rewrite <- Hst, set_students_id).
    simpl. by rewrite app_nil_r.
  - destruct (IH (updHelper (pushHelpedMember (helpee_member (helpeeObjs σ !!! s))) helper σ)
                 (set_students rest q)) as (σ' & Hrun & Hhelpees & Hserved).
    { done. }
    { simpl. by apply lookup_alter_is_Some. }
    { simpl in *. lia. }
    exists σ'. split; [by rewrite Hrun|]. split; [by rewrite Hhelpees|].
    rewrite Hserved. simpl. rewrite (lookup_total_alt (alter _ _ _)), lookup_alter_eq.
    destruct Halloc as [h Hh]. rewrite (lookup_total_alt (helperObjs σ)), Hh. simpl.
    by rewrite <- app_assoc.
Qed.

Lemma dequeue_past_the_end_witness :
  exists σ',
    dequeueTimes 3 10 (Scenarios.heap0, Scenarios.mathClosedAlice)
    = (Rejected (NoOneInQueue Scenarios.mathClosedAlice),
       (σ', set_students [] Scenarios.mathClosedAlice)) /\
    helpeeObjs σ' = helpeeObjs Scenarios.heap0 /\
    helpedMembers (helperObjs σ' !!! 10)
    = helpedMembers (helperObjs Scenarios.heap0 !!! 10)
      ++ ((fun r => helpee_member (helpeeObjs Scenarios.heap0 !!! r))
            <$> students Scenarios.mathClosedAlice).
Proof.
  apply (dequeue_past_the_end 10 3 Scenarios.heap0 Scenarios.mathClosedAlice).
  - compute_done.
  - compute_done.
  - simpl. lia.
Defined.

(** *** closeQueue, then openQueue *)

(** X5.  On a Closed queue [closeQueue] at time [t1] followed by [openQueue]
    at time [t2] both resolve; the queue is then Open and every helper object
    of the helper set carries [helpEnd = t1] and [helpStart = t2], with its
    served list and member as before; nothing else in the heap has changed. *)
Theorem closeQueue_then_openQueue (t1 t2 : Z) (σ : Heap) (q : Queue) :
  isOpen q = false ->
  exists σ1 σ2,
    closeQueue t1 (σ, q) = (Resolved tt, (σ1, q)) /\
    openQueue t2 (σ1, q) = (Resolved tt, (σ2, set_isOpen true q)) /\
    helpeeObjs σ2 = helpeeObjs σ /\
    forall r : nat,
      helperObjs σ2 !! r
      = if decide (r ∈ helpers q)
        then (fun h => mkHelper t2 (Some t1) (helpedMembers h) (helper_member h))
               <$> helperObjs σ !! r
        else helperObjs σ !! r.
Proof.
  intros Hclosed. unfold closeQueue, openQueue. rewrite Hclosed.
  replace (set_isOpen false q) with q by (by rewrite <- Hclosed, set_isOpen_id).
  do 2 eexists. split; [done|].
  split; [done|]. split.
  { by rewrite !forEachHelper_helpees. }
  intros r. rewrite !forEachHelper_lookup.
  destruct (decide (r ∈ helpers q)); [|done].
  by destruct (helperObjs σ !! r).
Qed.

Lemma closeQueue_then_openQueue_witness :
  exists σ1 σ2,
    closeQueue 20 (Scenarios.heap0, Scenarios.mathClosed)
    = (Resolved tt, (σ1, Scenarios.mathClosed)) /\
    openQueue 30 (σ1, Scenarios.mathClosed)
    = (Resolved tt, (σ2, set_isOpen true Scenarios.mathClosed)) /\
    helpeeObjs σ2 = helpeeObjs Scenarios.heap0 /\
    forall r : nat,
      helperObjs σ2 !! r
      = if decide (r ∈ helpers Scenarios.mathClosed)
        then (fun h => mkHelper 30 (Some 20%Z) (helpedMembers h) (helper_member h))
               <$> helperObjs Scenarios.heap0 !! r
        else helperObjs Scenarios.heap0 !! r.
Proof.
  apply (closeQueue_then_openQueue 20 30 Scenarios.heap0 Scenarios.mathClosed).
  reflexivity.
Defined.

(** *** What no call touches *)

Local Abbreviation sameMember :=
  (fun s s' : Helpee => helpee_member s' = helpee_member s).
Local Abbreviation servedMore :=
  (fun h h' : Helper =>
     helper_member h' = helper_member h /\
     helpedMembers h `prefix_of` helpedMembers h').
Local Abbreviation keeps w w' :=
  (queueName w'.2 = queueName w.2 /\
   helpers w'.2 = helpers w.2 /\
   (forall r : nat,
      option_Forall2 sameMember (helpeeObjs w.1 !! r) (helpeeObjs w'.1 !! r)) /\
   (forall r : nat,
      option_Forall2 servedMore (helperObjs w.1 !! r) (helperObjs w'.1 !! r))).

Lemma keeps_refl (w : World) : keeps w w.
Proof.
  repeat split; try done.
  - intros r. by destruct (helpeeObjs w.1 !! r); constructor.
  - intros r. by destruct (helperObjs w.1 !! r); constructor.
Qed.

Lemma keeps_trans (w1 w2 w3 : World) : keeps w1 w2 -> keeps w2 w3 -> keeps w1 w3.
Proof.
  intros (N1 & H1 & S1 & P1) (N2 & H2 & S2 & P2).
  split; [congruence|]. split; [congruence|]. split.
  - intros r. specialize (S1 r). specialize (S2 r).
    destruct S1 as [s s' E1|]; inversion S2; subst; constructor. congruence.
  - intros r. specialize (P1 r). specialize (P2 r).
    destruct P1 as [h h' [E1 F1]|]; inversion P2 as [? h'' [E2 F2]|]; subst; constructor.
    split; [congruence|]. by etrans.
Qed.

Lemma forEachHelper_keeps (f : Helper -> Helper) (σ : Heap) (q q' : Queue) :
  (forall h, servedMore h (f h)) ->
  queueName q' = queueName q -> helpers q' = helpers q ->
  keeps (σ, q) (forEachHelper f (helpers q) σ, q').
Proof.
  intros Hf Hn Hh. simpl. split; [done|]. split; [done|]. split.
  - intros r. rewrite forEachHelper_helpees.
    by destruct (helpeeObjs σ !! r); constructor.
  - intros r. rewrite forEachHelper_lookup.
    destruct (decide (r ∈ helpers q)), (helperObjs σ !! r); simpl; constructor; done.
Qed.

Lemma call_keeps (c : Call) (w : World) : keeps w (call c w).2.
Proof.
  destruct w as [σ q]. destruct c as [now|now|student now|helper]; simpl.
  - destruct (isOpen q); [apply (keeps_refl (σ, q))|].
    by apply forEachHelper_keeps.
  - destruct (isOpen q); [apply (keeps_refl (σ, q))|].
    by apply forEachHelper_keeps.
  - destruct (isOpen q); simpl; [|apply (keeps_refl (σ, q))].
    split; [done|]. split; [done|]. split.
    + intros r. destruct (decide (r = student)) as [->|Hne].
      * rewrite lookup_alter_eq. by destruct (helpeeObjs σ !! student); constructor.
      * rewrite lookup_alter_ne by done. by destruct (helpeeObjs σ !! r); constructor.
    + intros r. by destruct (helperObjs σ !! r); constructor.
  - destruct (bool_decide (helper ∈ helpers q)); simpl; [|apply (keeps_refl (σ, q))].
    destruct (students q) as [|s rest]; [apply (keeps_refl (σ, q))|]. simpl.
    split; [done|]. split; [done|]. split.
    + intros r. by destruct (helpeeObjs σ !! r); constructor.
    + intros r. destruct (decide (r = helper)) as [->|Hne].
      * rewrite lookup_alter_eq. destruct (helperObjs σ !! helper); constructor.
        split; [done|]. simpl. by apply prefix_app_r.
      * rewrite lookup_alter_ne by done. by destruct (helperObjs σ !! r); constructor.
Qed.

(** X6.  Whatever calls are made on a queue, its name and its helper set stay
    what they were: no method adds or removes a helper.  No helper or student
    object appears or disappears, every object keeps its member, and a
    helper's [helpedMembers] is only ever extended at the end. *)
Theorem run_keeps (calls : list Call) (σ : Heap) (q : Queue) :
  queueName (run calls (σ, q)).2.2 = queueName q /\
  helpers (run calls (σ, q)).2.2 = helpers q /\
  (forall r : nat,
     option_Forall2 (fun s s' => helpee_member s' = helpee_member s)
       (helpeeObjs σ !! r) (helpeeObjs (run calls (σ, q)).2.1 !! r)) /\
  (forall r : nat,
     option_Forall2
       (fun h h' => helper_member h' = helper_member h /\
                    helpedMembers h `prefix_of` helpedMembers h')
       (helperObjs σ !! r) (helperObjs (run calls (σ, q)).2.1 !! r)).
Proof.
  change (keeps (σ, q) (run calls (σ, q)).2).
  generalize (σ, q). clear σ q.
  induction calls as [|c calls IH]; intros w; [apply keeps_refl|].
  cbn [run]. pose proof (call_keeps c w) as Hstep.
  destruct (call c w) as [r w1]. specialize (IH w1).
  destruct (run calls w1) as [rs w2]. by apply (keeps_trans w w1 w2).
Qed.

End HelpQueueV2_Runs.

(** * More on the server orchestrator (class AttendingServerV2) *)

Module AttendingServerV2_More.
Import AttendingServerV2 AttendingServerV2_Properties.

(** [reduce] returns one of the elements of the array when its callback
    returns one of its two arguments. *)
Lemma reduce_elem_of {A : Type} (f : A -> A -> A) (l : list A) (x : A) :
  (forall a b, f a b = a \/ f a b = b) ->
  reduce f l = Some x -> x ∈ l.
Proof.
  intros Hf. destruct l as [|a l]; [done|]. simpl. intros [= <-].
  revert a. induction l as [|b l IH]; intros a; simpl.
  - apply elem_of_cons. by left.
  - destruct (Hf a b) as [-> | ->].
    + specialize (IH a). apply elem_of_cons in IH as [->|IH].
      * apply elem_of_cons. by left.
      * apply elem_of_cons. right. apply elem_of_cons. by right.
    + apply elem_of_cons. right. apply IH.
Qed.

Lemma olderFirst_picks (a b : nat * Queue) : olderFirst a b = a \/ olderFirst a b = b.
Proof.
  unfold olderFirst.
  destruct (firstWaitStart a.2), (firstWaitStart b.2); try by right.
  destruct (_ <? _)%Z; [by left | by right].
Qed.

(** *** dequeueFirst: what it never does *)

(** [dequeueFirst] without a queue argument, on the run in which the Discord
    calls it awaits after the dequeue resolve. *)
Lemma dequeueFirst_cases (helperMember : GuildMember) (queues : list Queue) :
  match dequeueFirst helperMember None queues with
  | (Rejected _, queues') => queues' = queues
  | (Resolved student, queues') =>
      is_Some (voice helperMember) /\
      exists i q q',
        queues !! i = Some q /\
        helpersHas helperMember q = true /\
        currentlyOpen q = true /\
        first q = Some student /\
        queues' = <[i := q']> queues /\
        students q' = tail (students q) /\
        name q' = name q /\
        currentlyOpen q' = true
  end.
Proof.
  unfold dequeueFirst.
  destruct (length (currentlyHelpingChannels helperMember queues) =? 0)%nat; [done|].
  destruct (voice helperMember) as [vc|]; [|done].
  destruct (length (nonEmptyQueues helperMember queues) =? 0)%nat; [done|].
  destruct (reduce olderFirst (nonEmptyQueues helperMember queues)) as [[i q]|] eqn:Hred;
    [|done].
  apply (reduce_elem_of _ _ _ olderFirst_picks) in Hred.
  apply elem_of_nonEmptyQueues in Hred as (Hi & Hhas & Hopen & Hst).
  destruct (students q) as [|student rest] eqn:Hstudents; [done|].
  destruct (dequeueWithHelper_candidate _ _ _ _ Hhas Hstudents)
    as (q' & Hdeq & Hrest & Hname & Hopen').
  rewrite Hdeq. split; [by eexists|].
  exists i, q, q'. unfold first. rewrite Hstudents. simpl.
  repeat split; try done. congruence.
Qed.

(** X7.  [dequeueFirst] without a queue argument changes no queue when it
    rejects at one of its own checks.  In every other outcome, whether it
    resolves or a Discord call awaited after the dequeue rejects, the helper
    is in a voice channel and exactly one student has left: the first student
    of a queue that is Open and has the helper among its helpers, which is the
    student returned when the call resolves; no other position of the queue
    array has changed. *)
Theorem dequeueFirstAwaited_outcomes (discordResolves : bool)
    (helperMember : GuildMember) (queues : list Queue) :
  match dequeueFirstAwaited discordResolves helperMember None queues with
  | (Rejected (Thrown _), queues') => queues' = queues
  | (Resolved student, queues') =>
      discordResolves = true /\
      is_Some (voice helperMember) /\
      exists i q q',
        queues !! i = Some q /\
        helpersHas helperMember q = true /\
        currentlyOpen q = true /\
        first q = Some student /\
        queues' = <[i := q']> queues /\
        students q' = tail (students q) /\
        name q' = name q /\
        currentlyOpen q' = true
  | (Rejected AwaitedCallRejected, queues') =>
      discordResolves = false /\
      is_Some (voice helperMember) /\
      exists i q q',
        queues !! i = Some q /\
        helpersHas helperMember q = true /\
        currentlyOpen q = true /\
        is_Some (first q) /\
        queues' = <[i := q']> queues /\
        students q' = tail (students q) /\
        name q' = name q /\
        currentlyOpen q' = true
  end.
Proof.
  pose proof (dequeueFirst_cases helperMember queues) as Hcases.
  unfold dequeueFirstAwaited.
  destruct (dequeueFirst helperMember None queues) as [[student|e] queues']; [|done].
  destruct Hcases as (Hvoice & i & q & q' & Hi & Hhas & Hopen & Hfirst & Hrest).
  destruct discordResolves.
  - split; [done|]. split; [done|]. by exists i, q, q'.
  - split; [done|]. split; [done|]. exists i, q, q'.
    split; [done|]. split; [done|]. split; [done|]. split; [by eexists|]. done.
Qed.

(** *** announceToStudentsInQueue *)

(** X8.  Without a target queue the announcement makes no permission check.
    A direct message is started exactly to the students waiting in the queues
    that have the helper among their helpers, one message per waiting entry:
    whether a queue is Open and which class roles the helper holds play no
    part, and a helper who hosts nothing sends nothing.  The call resolves
    when every one of these sends resolves and rejects otherwise. *)
Theorem announceAwaited_everywhere (sendResolves : DirectMessage -> bool)
    (helperMember : GuildMember) (message : string) (queues : list Queue) :
  exists sent,
    announceToStudentsInQueueAwaited sendResolves helperMember message None queues
    = (if forallb sendResolves sent then Resolved tt else Rejected AwaitedCallRejected,
       sent) /\
    length sent
    = sum_list (length_ <$> List.filter (helpersHas helperMember) queues) /\
    forall dm,
      dm ∈ sent <->
      exists q student,
        q ∈ queues /\ helpersHas helperMember q = true /\ student ∈ students q /\
        dm = mkDM (helpee_member student) (SimpleEmbed message None None).
Proof.
  exists ((fun student => mkDM (helpee_member student) (SimpleEmbed message None None))
            <$> concat (students <$> List.filter (helpersHas helperMember) queues)).
  split; [reflexivity|]. split.
  - rewrite length_fmap.
    induction (List.filter (helpersHas helperMember) queues) as [|q l IH]; [done|].
    rewrite !fmap_cons. cbn [concat]. rewrite length_app, IH. done.
  - intros dm. rewrite list_elem_of_fmap. split.
    + intros (student & -> & Hin).
      apply list_elem_of_In, in_concat in Hin as (l & Hl & Hs).
      apply list_elem_of_In, list_elem_of_fmap in Hl as (q & -> & Hq).
      apply elem_of_filter_bool in Hq as [Hq Hhas].
      exists q, student. repeat split; try done. by apply list_elem_of_In.
    + intros (q & student & Hq & Hhas & Hs & ->).
      exists student. split; [done|].
      apply list_elem_of_In, in_concat. exists (students q).
      split; [|by apply list_elem_of_In].
      apply list_elem_of_In, list_elem_of_fmap_2. by apply elem_of_filter_bool.
Qed.

(** When every send resolves, the announcement is the one embedded above. *)
Lemma announceAwaited_all_resolve (helperMember : GuildMember) (message : string)
    (targetQueue : option QueueChannel) (queues : list Queue) :
  announceToStudentsInQueueAwaited (fun _ => true) helperMember message targetQueue queues
  = match announceToStudentsInQueue helperMember message targetQueue queues with
    | (Resolved u, sent) => (Resolved u, sent)
    | (Rejected e, sent) => (Rejected (Thrown e), sent)
    end.
Proof.
  assert (Htrue : forall l : list DirectMessage, forallb (fun _ => true) l = true).
  { intros l. by induction l. }
  unfold announceToStudentsInQueueAwaited, announceToStudentsInQueue.
  destruct targetQueue as [tq|]; [|by rewrite Htrue].
  destruct (List.find _ queues); [|done]. by rewrite !Htrue.
Qed.

(** X9.  With a target queue the announcement rejects exactly when no queue
    carries the target's name and has the helper among its helpers; the class
    roles of the helper are not consulted.  On that rejection no message has
    been sent, not even to the queues the helper does host. *)
Theorem announce_target_rejected (helperMember : GuildMember) (message : string)
    (tq : QueueChannel) (queues : list Queue) :
  (forall q, q ∈ queues -> name q = queueName tq -> helpersHas helperMember q = false)
  <->
  announceToStudentsInQueue helperMember message (Some tq) queues
  = (Rejected (ServerError ("You don't have permission to announce in "
                            ++ queueName tq ++ ". " ++ "Check your class roles.")%string),
     []).
Proof.
  unfold announceToStudentsInQueue.
  destruct (List.find _ queues) as [qa|] eqn:Hfind; split.
  - intros Hnone. apply find_some in Hfind as [Hin Hp].
    apply andb_true_iff in Hp as [Hn Hh]. apply String.eqb_eq in Hn.
    apply list_elem_of_In in Hin. by rewrite (Hnone qa Hin Hn) in Hh.
  - done.
  - done.
  - intros _ q Hq Hn.
    pose proof (find_none _ _ Hfind q (proj1 (list_elem_of_In _ _) Hq)) as Hp.
    simpl in Hp. apply andb_false_iff in Hp as [Hp|Hp]; [|done].
    apply String.eqb_neq in Hp. done.
Qed.


(** *** closeAllClosableQueues *)

Lemma mapSelected_none {A : Type} (sel : Queue -> bool)
    (op : Queue -> Completion QueueError A * Queue) (queues : list Queue) :
  List.filter sel queues = [] -> mapSelected sel op queues = ([], queues).
Proof.
  induction queues as [|q queues IH]; [done|]. simpl.
  destruct (sel q); [done|]. intros Hnil. by rewrite (IH Hnil).
Qed.

Lemma closeQueue_hosting (helperMember : GuildMember) (now : Z) (q : Queue) (hr : Helper) :
  helpers q !! member_id helperMember = Some hr ->
  currentlyOpen q = true ->
  closeQueue helperMember now q
  = (Resolved (mkRequiredHelper (helpStart hr) now (helpedMembers hr) (helper_member hr)),
     mkQueue (name q) (<[member_id helperMember := setHelpEnd now hr]> (helpers q))
             (students q) false).
Proof. intros Hh Ho. unfold closeQueue. by rewrite Hh, Ho. Qed.

Lemma closeQueue_not_hosting (helperMember : GuildMember) (now : Z) (q : Queue) :
  helpersHas helperMember q && currentlyOpen q = false ->
  closeQueue helperMember now q = (Rejected (NotHosting q), q).
Proof.
  unfold helpersHas, closeQueue. intros Hno.
  destruct (helpers q !! member_id helperMember) as [hr|] eqn:Hh; [|done].
  rewrite bool_decide_eq_true_2 in Hno by by eexists. simpl in Hno. by rewrite Hno.
Qed.

Lemma closeQueue_queue (helperMember : GuildMember) (now : Z) (q : Queue) :
  (closeQueue helperMember now q).2
  = if helpersHas helperMember q && currentlyOpen q
    then mkQueue (name q) (alter (setHelpEnd now) (member_id helperMember) (helpers q))
                 (students q) false
    else q.
Proof.
  destruct (helpersHas helperMember q && currentlyOpen q) eqn:Hc.
  - apply andb_true_iff in Hc as [Hh Ho]. unfold helpersHas in Hh.
    apply bool_decide_eq_true in Hh as [hr Hh].
    rewrite (closeQueue_hosting _ _ _ hr Hh Ho). simpl. f_equal.
    apply map_eq. intros k. destruct (decide (k = member_id helperMember)) as [->|Hne].
    + by rewrite lookup_insert_eq, lookup_alter_eq, Hh.
    + by rewrite lookup_insert_ne, lookup_alter_ne.
  - by rewrite closeQueue_not_hosting.
Qed.

Lemma Promise_all_closeQueue_rejected (helperMember : GuildMember) (now : Z)
    (l : list Queue) :
  existsb (fun q => negb (helpersHas helperMember q && currentlyOpen q)) l = true ->
  exists e, Promise_all ((fun q => (closeQueue helperMember now q).1) <$> l) = Rejected e.
Proof.
  induction l as [|q l IH]; [done|]. rewrite fmap_cons. cbn [existsb Promise_all].
  destruct (helpersHas helperMember q && currentlyOpen q) eqn:Hc; simpl.
  - intros Hl. destruct (IH Hl) as [e He]. rewrite He.
    apply andb_true_iff in Hc as [Hh Ho]. unfold helpersHas in Hh.
    apply bool_decide_eq_true in Hh as [hr Hh].
    rewrite (closeQueue_hosting _ _ _ hr Hh Ho). by eexists.
  - intros _. rewrite closeQueue_not_hosting by done. by eexists.
Qed.

Lemma Promise_all_closeQueue_resolved (helperMember : GuildMember) (now : Z)
    (l : list Queue) :
  Forall (fun q => helpersHas helperMember q && currentlyOpen q = true) l ->
  Promise_all ((fun q => (closeQueue helperMember now q).1) <$> l)
  = Resolved ((fun q =>
                 let hr := helpers q !!! member_id helperMember in
                 mkRequiredHelper (helpStart hr) now (helpedMembers hr) (helper_member hr))
                <$> l).
Proof.
  induction 1 as [|q l Hq _ IH]; [done|]. rewrite !fmap_cons. cbn [Promise_all].
  rewrite IH. apply andb_true_iff in Hq as [Hh Ho]. unfold helpersHas in Hh.
  apply bool_decide_eq_true in Hh as [hr Hh].
  rewrite (closeQueue_hosting _ _ _ hr Hh Ho). simpl.
  by rewrite lookup_total_alt, Hh.
Qed.

Lemma closeAllClosableQueues_queues (helperMember : GuildMember) (now : Z)
    (queues : list Queue) :
  (closeAllClosableQueues helperMember now queues).2
  = (fun q =>
       if hasRoleNamed helperMember q && (helpersHas helperMember q && currentlyOpen q)
       then mkQueue (name q)
                    (alter (setHelpEnd now) (member_id helperMember) (helpers q))
                    (students q) false
       else q) <$> queues.
Proof.
  unfold closeAllClosableQueues.
  pose proof (mapSelected_queues (hasRoleNamed helperMember)
                (closeQueue helperMember now) queues) as Hqs.
  destruct (mapSelected _ _ queues) as [results queues']. simpl in Hqs. subst.
  assert (Hsnd : forall (r : Completion Error RequiredHelper) (x : list Queue), (r, x).2 = x)
    by done.
  transitivity ((fun q => if hasRoleNamed helperMember q
                          then (closeQueue helperMember now q).2 else q) <$> queues).
  { destruct (Promise_all results) as [helpTimes|e]; [|done].
    by destruct (reduce pickHelpTime helpTimes). }
  apply list_fmap_ext. intros _ q _. rewrite closeQueue_queue.
  by destruct (hasRoleNamed helperMember q).
Qed.

Lemma closeAllClosableQueues_result (helperMember : GuildMember) (now : Z)
    (queues : list Queue) :
  (closeAllClosableQueues helperMember now queues).1
  = match Promise_all ((fun q => (closeQueue helperMember now q).1)
                         <$> List.filter (hasRoleNamed helperMember) queues) with
    | Rejected _ => Rejected (ServerError "You are not currently hosting.")
    | Resolved helpTimes =>
        match reduce pickHelpTime helpTimes with
        | None => Rejected (TypeError "Reduce of empty array with no initial value")
        | Some maxHelpTime => Resolved maxHelpTime
        end
    end.
Proof.
  unfold closeAllClosableQueues.
  pose proof (mapSelected_results (hasRoleNamed helperMember)
                (closeQueue helperMember now) queues) as Hrs.
  destruct (mapSelected _ _ queues) as [results queues']. simpl in Hrs. subst.
  destruct (Promise_all _) as [helpTimes|e]; [|done].
  by destruct (reduce pickHelpTime helpTimes).
Qed.

(** X10.  A helper none of whose roles is named like a queue gets no
    [ServerError] from [closeAllClosableQueues]: nothing is closed, the
    [reduce] runs on an empty array, and the call rejects with the
    [TypeError] of JavaScript's [reduce]; no queue changes. *)
Theorem closeAllClosableQueues_without_class_role (helperMember : GuildMember) (now : Z)
    (queues : list Queue) :
  List.filter (hasRoleNamed helperMember) queues = [] ->
  closeAllClosableQueues helperMember now queues
  = (Rejected (TypeError "Reduce of empty array with no initial value"), queues).
Proof.
  intros Hnone. unfold closeAllClosableQueues.
  by rewrite (mapSelected_none _ _ _ Hnone).
Qed.

Lemma closeAllClosableQueues_without_class_role_witness :
  closeAllClosableQueues Scenarios.omar 100 [Scenarios.math; Scenarios.physics]
  = (Rejected (TypeError "Reduce of empty array with no initial value"),
     [Scenarios.math; Scenarios.physics]).
Proof.
  apply (closeAllClosableQueues_without_class_role Scenarios.omar 100
           [Scenarios.math; Scenarios.physics]).
  reflexivity.
Defined.

(** X11.  If one of the queues named like a role of the helper is not Open or
    does not have the helper among its helpers, [closeAllClosableQueues]
    rejects with "You are not currently hosting." and returns no session; the
    other queues named like a role of the helper have been closed all the
    same, with the helper's [helpEnd] stamped, and the remaining queues are as
    before. *)
Theorem closeAllClosableQueues_partial (helperMember : GuildMember) (now : Z)
    (queues : list Queue) :
  existsb (fun q => negb (helpersHas helperMember q && currentlyOpen q))
          (List.filter (hasRoleNamed helperMember) queues) = true ->
  closeAllClosableQueues helperMember now queues
  = (Rejected (ServerError "You are not currently hosting."),
     (fun q =>
        if hasRoleNamed helperMember q && (helpersHas helperMember q && currentlyOpen q)
        then mkQueue (name q)
                     (alter (setHelpEnd now) (member_id helperMember) (helpers q))
                     (students q) false
        else q) <$> queues).
Proof.
  intros Hsome.
  rewrite (surjective_pairing (closeAllClosableQueues helperMember now queues)).
  rewrite closeAllClosableQueues_queues, closeAllClosableQueues_result.
  by destruct (Promise_all_closeQueue_rejected helperMember now _ Hsome) as [e ->].
Qed.

(** Tina holds both class roles; "Math" is Open and hosted by her, "Physics"
    is Closed. *)
Lemma closeAllClosableQueues_partial_witness :
  closeAllClosableQueues Scenarios.tina 100 [Scenarios.math; Scenarios.physicsClosed]
  = (Rejected (ServerError "You are not currently hosting."),
     (fun q =>
        if hasRoleNamed Scenarios.tina q && (helpersHas Scenarios.tina q && currentlyOpen q)
        then mkQueue (name q)
                     (alter (setHelpEnd 100) (member_id Scenarios.tina) (helpers q))
                     (students q) false
        else q) <$> [Scenarios.math; Scenarios.physicsClosed]).
Proof.
  apply (closeAllClosableQueues_partial Scenarios.tina 100
           [Scenarios.math; Scenarios.physicsClosed]).
  vm_compute. reflexivity.
Defined.

(** X12.  When every queue named like a role of the helper is Open and has the
    helper among its helpers, each with a [helpStart] before [now],
    [closeAllClosableQueues] resolves with the session the helper had in the
    first of these queues in array order, however long the helper's sessions
    in the other queues were. *)
Theorem closeAllClosableQueues_returns_first (helperMember : GuildMember) (now : Z)
    (queues : list Queue) (q0 : Queue) (rest : list Queue) (h0 : Helper) :
  List.filter (hasRoleNamed helperMember) queues = q0 :: rest ->
  Forall (fun q => exists hr, helpers q !! member_id helperMember = Some hr /\
                              currentlyOpen q = true /\ (helpStart hr < now)%Z)
         (q0 :: rest) ->
  helpers q0 !! member_id helperMember = Some h0 ->
  (closeAllClosableQueues helperMember now queues).1
  = Resolved (mkRequiredHelper (helpStart h0) now (helpedMembers h0) (helper_member h0)).
Proof.
  intros Hclosable Hall Hh0. rewrite closeAllClosableQueues_result, Hclosable.
  rewrite Promise_all_closeQueue_resolved.
  2:{ eapply Forall_impl; [exact Hall|]. intros q (hr & Hh & Ho & _).
      unfold helpersHas. rewrite bool_decide_eq_true_2 by by eexists. by rewrite Ho. }
  rewrite fmap_cons. rewrite reduce_pickHelpTime_first.
  - simpl. by rewrite lookup_total_alt, Hh0.
  - apply Forall_cons in Hall as [_ Hrest]. apply Forall_fmap.
    eapply Forall_impl; [exact Hrest|]. intros q (hr & Hh & _ & Hlt).
    simpl. by rewrite lookup_total_alt, Hh.
Qed.

(** Tina hosts "Math" since 90 and "Physics" since 0 and stops at 100. *)
Lemma closeAllClosableQueues_returns_first_witness :
  (closeAllClosableQueues Scenarios.tina 100
     [Scenarios.mathSince90; Scenarios.physicsSince0]).1
  = Resolved (mkRequiredHelper 90 100 [] Scenarios.tina).
Proof.
  apply (closeAllClosableQueues_returns_first Scenarios.tina 100
           [Scenarios.mathSince90; Scenarios.physicsSince0]
           Scenarios.mathSince90 [Scenarios.physicsSince0]
           (mkHelper 90 None [] Scenarios.tina)).
  - reflexivity.
  - repeat constructor.
    + exists (mkHelper 90 None [] Scenarios.tina). by repeat split.
    + exists (mkHelper 0 None [] Scenarios.tina). by repeat split.
  - vm_compute. reflexivity.
Defined.

(** *** Starting and stopping *)

Lemma filter_fmap_same {A : Type} (p : A -> bool) (f : A -> A) (l : list A) :
  (forall x, p (f x) = p x) ->
  List.filter p (f <$> l) = f <$> List.filter p l.
Proof.
  intros Hp. induction l as [|x l IH]; [done|].
  rewrite fmap_cons. simpl. rewrite Hp. destruct (p x); by rewrite IH.
Qed.

Lemma existsb_false_Forall {A : Type} (p : A -> bool) (l : list A) :
  Forall (fun x => p x = false) l -> existsb p l = false.
Proof. induction 1 as [|x l Hx _ IH]; [done|]. simpl. by rewrite Hx, IH. Qed.

Lemma openAllOpenableQueues_all_closed (helperMember : GuildMember) (now : Z)
    (queues : list Queue) :
  List.filter (hasRoleNamed helperMember) queues <> [] ->
  Forall (fun q => hasRoleNamed helperMember q = true -> currentlyOpen q = false) queues ->
  openAllOpenableQueues helperMember now queues
  = (Resolved tt,
     (fun q => if hasRoleNamed helperMember q
               then (openQueue helperMember now q).2 else q) <$> queues).
Proof.
  intros Hne Hclosed. unfold openAllOpenableQueues.
  pose proof (mapSelected_queues (hasRoleNamed helperMember)
                (openQueue helperMember now) queues) as Hqs.
  pose proof (mapSelected_results (hasRoleNamed helperMember)
                (openQueue helperMember now) queues) as Hrs.
  pose proof (Promise_all_openQueue helperMember now
                (List.filter (hasRoleNamed helperMember) queues)) as Hall.
  destruct (mapSelected _ _ queues) as [results queues']. simpl in Hqs, Hrs. subst.
  destruct (length (List.filter (hasRoleNamed helperMember) queues) =? 0)%nat eqn:Hlen.
  { by apply length_eqb_0 in Hlen. }
  rewrite existsb_false_Forall in Hall.
  - by destruct (Promise_all _).
  - apply Forall_forall. intros q [Hq Hrole]%elem_of_filter_bool.
    exact (proj1 (Forall_forall _ _) Hclosed q Hq Hrole).
Qed.

(** X13.  Starting and then stopping.  If at least one queue is named like a
    role of the helper and all such queues are Closed, then
    [openAllOpenableQueues] at time [t0] resolves, and
    [closeAllClosableQueues] at time [t1] on the result resolves with a
    session that started at [t0] and ended at [t1]; afterwards every queue has
    the name, the waiting list and the Open/Closed state it had at the
    beginning. *)
Theorem start_then_stop (helperMember : GuildMember) (t0 t1 : Z) (queues : list Queue) :
  List.filter (hasRoleNamed helperMember) queues <> [] ->
  Forall (fun q => hasRoleNamed helperMember q = true -> currentlyOpen q = false) queues ->
  exists queues1 session queues2,
    openAllOpenableQueues helperMember t0 queues = (Resolved tt, queues1) /\
    closeAllClosableQueues helperMember t1 queues1 = (Resolved session, queues2) /\
    r_helpStart session = t0 /\
    r_helpEnd session = t1 /\
    helpTime session = (t1 - t0)%Z /\
    name <$> queues2 = name <$> queues /\
    students <$> queues2 = students <$> queues /\
    currentlyOpen <$> queues2 = currentlyOpen <$> queues.
Proof.
  intros Hne Hclosed.
  set (opened := fun q => if hasRoleNamed helperMember q
                          then (openQueue helperMember t0 q).2 else q).
  assert (Hname : forall q, name (opened q) = name q).
  { intros q. unfold opened, openQueue.
    by destruct (hasRoleNamed helperMember q), (currentlyOpen q). }
  assert (Hrole : forall q, hasRoleNamed helperMember (opened q) = hasRoleNamed helperMember q).
  { intros q. unfold hasRoleNamed. by rewrite Hname. }
  assert (Hopened : forall q, q ∈ queues -> hasRoleNamed helperMember q = true ->
            exists hr, helpers (opened q) !! member_id helperMember = Some hr /\
                       helpStart hr = t0 /\ currentlyOpen (opened q) = true /\
                       students (opened q) = students q).
  { intros q Hq Hr. unfold opened, openQueue. rewrite Hr.
    rewrite (proj1 (Forall_forall _ _) Hclosed q Hq Hr). simpl.
    rewrite lookup_insert_eq. eexists. split; [done|].
    by destruct (helpers q !! member_id helperMember). }
  exists (opened <$> queues).
  pose proof (closeAllClosableQueues_result helperMember t1 (opened <$> queues)) as Hres.
  pose proof (closeAllClosableQueues_queues helperMember t1 (opened <$> queues)) as Hqs.
  rewrite (filter_fmap_same _ _ _ Hrole) in Hres.
  rewrite Promise_all_closeQueue_resolved in Hres.
  2:{ apply Forall_fmap, Forall_forall. intros q [Hq Hr]%elem_of_filter_bool. simpl.
      destruct (Hopened q Hq Hr) as (hr & Hh & _ & Ho & _).
      unfold helpersHas. rewrite bool_decide_eq_true_2 by by eexists. by rewrite Ho. }
  destruct (reduce pickHelpTime _) as [session|] eqn:Hred.
  2:{ destruct (List.filter (hasRoleNamed helperMember) queues); done. }
  apply reduce_elem_of in Hred.
  2:{ intros a b. unfold pickHelpTime. destruct (_ >? _)%Z; [by left|by right]. }
  apply list_elem_of_fmap in Hred as (q1 & Hsession & Hq1).
  apply list_elem_of_fmap in Hq1 as (q & -> & Hq).
  apply elem_of_filter_bool in Hq as [Hq Hr].
  destruct (Hopened q Hq Hr) as (hr & Hh & Hstart & _).
  simpl in Hsession. rewrite lookup_total_alt, Hh in Hsession. simpl in Hsession.
  exists session, (closeAllClosableQueues helperMember t1 (opened <$> queues)).2.
  split; [by apply openAllOpenableQueues_all_closed|].
  split; [by rewrite <- Hres, <- surjective_pairing|].
  split; [by rewrite Hsession|]. split; [by rewrite Hsession|].
  split; [rewrite Hsession; unfold helpTime; simpl; by rewrite Hstart|].
  rewrite Hqs, <- !list_fmap_compose.
  split; [|split]; apply list_fmap_ext; intros j q' Hq'; simpl.
  - destruct (_ && _); simpl; by rewrite Hname.
  - destruct (_ && _); simpl; unfold opened, openQueue;
      by destruct (hasRoleNamed helperMember q'), (currentlyOpen q').
  - apply list_elem_of_lookup_2 in Hq'.
    destruct (hasRoleNamed helperMember q') eqn:Hr'.
    + destruct (Hopened q' Hq' Hr') as (hr' & Hh' & _ & Ho' & _).
      rewrite Hrole, Hr'. unfold helpersHas.
      rewrite bool_decide_eq_true_2 by by eexists. rewrite Ho'. simpl.
      symmetry. exact (proj1 (Forall_forall _ _) Hclosed q' Hq' Hr').
    + rewrite Hrole, Hr'. simpl. unfold opened. by rewrite Hr'.
Qed.

(** Tina, holding both class roles, starts at 10 and stops at 70 on the two
    freshly created queues. *)
Lemma start_then_stop_witness :
  exists queues1 session queues2,
    openAllOpenableQueues Scenarios.tina 10 [Scenarios.mathFresh; Scenarios.physicsFresh]
    = (Resolved tt, queues1) /\
    closeAllClosableQueues Scenarios.tina 70 queues1 = (Resolved session, queues2) /\
    r_helpStart session = 10%Z /\
    r_helpEnd session = 70%Z /\
    helpTime session = (70 - 10)%Z /\
    name <$> queues2 = name <$> [Scenarios.mathFresh; Scenarios.physicsFresh] /\
    students <$> queues2 = students <$> [Scenarios.mathFresh; Scenarios.physicsFresh] /\
    currentlyOpen <$> queues2
    = currentlyOpen <$> [Scenarios.mathFresh; Scenarios.physicsFresh].
Proof.
  apply (start_then_stop Scenarios.tina 10 70 [Scenarios.mathFresh; Scenarios.physicsFresh]).
  - vm_compute. discriminate.
  - repeat constructor.
Defined.

(** *** getQueueChannels and createQueue *)

Lemma find_is_Some_existsb {A : Type} (p : A -> bool) (l : list A) :
  bool_decide (is_Some (List.find p l)) = existsb p l.
Proof.
  induction l as [|x l IH]; [done|]. simpl. destruct (p x); [|done].
  by apply bool_decide_eq_true_2.
Qed.

Lemma getQueueChannels_cons (ch : GuildChannel) (allChannels : list GuildChannel) :
  getQueueChannels (ch :: allChannels)
  = match (if isCategory ch then List.find isQueueTextChannel (ch_children ch) else None) with
    | Some child => mkQueueChannel (child_id child) (ch_name ch) :: getQueueChannels allChannels
    | None => getQueueChannels allChannels
    end.
Proof.
  unfold getQueueChannels. simpl. destruct (isCategory ch); [|done].
  rewrite fmap_cons. simpl. by destruct (List.find isQueueTextChannel (ch_children ch)).
Qed.

(** X14.  [getQueueChannels] returns one entry per category that has a text
    channel named "queue" among its children, in the order of the channels it
    read: the entry carries the category's name and the first such child.
    Channels that are not categories and categories without a "queue" text
    channel contribute nothing. *)
Theorem getQueueChannels_names (allChannels : list GuildChannel) :
  queueName <$> getQueueChannels allChannels
  = ch_name <$> List.filter
                  (fun ch => isCategory ch && existsb isQueueTextChannel (ch_children ch))
                  allChannels /\
  forall qc,
    qc ∈ getQueueChannels allChannels ->
    exists category child,
      category ∈ allChannels /\ isCategory category = true /\
      List.find isQueueTextChannel (ch_children category) = Some child /\
      qc = mkQueueChannel (child_id child) (ch_name category).
Proof.
  induction allChannels as [|ch l [IH1 IH2]]; [split; [done|]; by intros qc ?%elem_of_nil|].
  rewrite getQueueChannels_cons. simpl.
  rewrite <- find_is_Some_existsb.
  destruct (isCategory ch) eqn:Hcat; simpl.
  - destruct (List.find isQueueTextChannel (ch_children ch)) as [child|] eqn:Hfind.
    + rewrite bool_decide_eq_true_2 by by eexists. split.
      * rewrite !fmap_cons. simpl. by rewrite IH1.
      * intros qc [->|Hqc]%elem_of_cons.
        -- exists ch, child. repeat split; try done. apply elem_of_cons. by left.
        -- destruct (IH2 qc Hqc) as (category & c & Hin & ?).
           exists category, c. split; [|done]. apply elem_of_cons. by right.
    + rewrite bool_decide_eq_false_2 by (by intros [? ?]). split; [done|].
      intros qc Hqc. destruct (IH2 qc Hqc) as (category & c & Hin & ?).
      exists category, c. split; [|done]. apply elem_of_cons. by right.
  - split; [done|].
    intros qc Hqc. destruct (IH2 qc Hqc) as (category & c & Hin & ?).
    exists category, c. split; [|done]. apply elem_of_cons. by right.
Qed.

Lemma filter_bool_nil {A : Type} (p : A -> bool) (l : list A) :
  List.filter p l = [] <-> forall x, x ∈ l -> p x = false.
Proof.
  induction l as [|x l IH]; simpl.
  - split; [|done]. by intros _ y ?%elem_of_nil.
  - destruct (p x) eqn:Hp.
    + split; [done|]. intros Hall. specialize (Hall x). rewrite Hp in Hall.
      discriminate Hall. apply elem_of_cons. by left.
    + rewrite IH. split.
      * intros Hall y [->|Hy]%elem_of_cons; [done|by apply Hall].
      * intros Hall y Hy. apply Hall. apply elem_of_cons. by right.
Qed.

Lemma indexOf_first (arr : list string) (i : nat) (x : string) :
  arr !! i = Some x ->
  exists j, indexOf x arr = Some j /\ arr !! j = Some x.
Proof.
  intros Hi. unfold indexOf.
  destruct (list_find_elem_of (fun y => y = x) arr x) as [[j y] Hfind].
  { by eapply list_elem_of_lookup_2. }
  { done. }
  rewrite Hfind. simpl. exists j. split; [done|].
  apply list_find_Some in Hfind as (Hj & -> & _). done.
Qed.

(** X15.  The list of duplicate names that [getQueueChannels] warns about is
    empty exactly when no two of the queue channels carry the same name: the
    warning is printed if and only if two queue categories share a name. *)
Theorem duplicateQueues_nil_iff_NoDup (queueChannels : list QueueChannel) :
  duplicateQueues queueChannels = [] <-> NoDup (queueName <$> queueChannels).
Proof.
  unfold duplicateQueues. set (arr := queueName <$> queueChannels).
  assert (Hnil : forall l : list (nat * string), snd <$> l = [] <-> l = []).
  { intros l. split; [apply fmap_nil_inv | by intros ->]. }
  rewrite Hnil, filter_bool_nil, NoDup_alt. split.
  - intros Hall i j x Hi Hj.
    pose proof (Hall (i, x) (elem_of_lookup_imap_2 _ _ _ _ Hi)) as Hix.
    pose proof (Hall (j, x) (elem_of_lookup_imap_2 _ _ _ _ Hj)) as Hjx.
    simpl in Hix, Hjx.
    apply negb_false_iff, bool_decide_eq_true in Hix, Hjx. congruence.
  - intros Hnd [i x] (i' & x' & [= -> ->] & Hi)%elem_of_lookup_imap. simpl.
    apply negb_false_iff, bool_decide_eq_true.
    destruct (indexOf_first arr i' x' Hi) as (j & Hidx & Hj).
    rewrite Hidx. f_equal. by eapply Hnd.
Qed.


(** *** deleteQueueById *)

(** X17.  [deleteQueueById] rejects with "This queue does not exist." and
    changes nothing exactly when no queue belongs to the given category.
    Otherwise it resolves and removes one queue, the first in array order that
    belongs to the category; the queues before and after it stay, in their
    order. *)
Theorem deleteQueueById_outcome (parentCategoryId : Queue -> option string)
    (queueCategoryID : string) (queues : list Queue) :
  match deleteQueueById parentCategoryId queueCategoryID queues with
  | (Rejected e, queues') =>
      e = ServerError "This queue does not exist." /\ queues' = queues /\
      forall q, q ∈ queues -> parentCategoryId q <> Some queueCategoryID
  | (Resolved _, queues') =>
      exists before q after,
        queues = before ++ q :: after /\
        queues' = before ++ after /\
        parentCategoryId q = Some queueCategoryID /\
        forall q', q' ∈ before -> parentCategoryId q' <> Some queueCategoryID
  end.
Proof.
  unfold deleteQueueById.
  destruct (list_find _ queues) as [[i q]|] eqn:Hfind.
  - apply list_find_Some in Hfind as (Hi & Hq & Hbefore).
    exists (take i queues), q, (drop (S i) queues).
    split; [by rewrite take_drop_middle|].
    split; [by rewrite delete_take_drop|].
    split; [done|].
    intros q' (j & Hj)%list_elem_of_lookup_1.
    pose proof (lookup_lt_Some _ _ _ Hj) as Hlt. rewrite length_take in Hlt.
    rewrite lookup_take_lt in Hj by lia. apply (Hbefore j q' Hj). lia.
  - split; [done|]. split; [done|].
    apply list_find_None in Hfind. by apply Forall_forall.
Qed.

(** *** Calls on a queue looked up by name *)

(** X18.  [removeStudentFromQueue], [clearQueue], [addStudentToNotifGroup] and
    [removeStudentFromNotifGroup] look their queue up by name.  When no queue
    has the target's name they resolve without an error and change nothing.
    Whatever the queue's method does, the number of queues stays the same and
    every queue whose name differs from the target's is left as it is. *)
Theorem callOnQueueNamed_frame (targetName : string)
    (method : Queue -> Completion QueueError unit * Queue) (queues : list Queue) :
  ((forall q, q ∈ queues -> name q <> targetName) ->
   callOnQueueNamed targetName method queues = (Resolved tt, queues)) /\
  length (callOnQueueNamed targetName method queues).2 = length queues /\
  forall j q,
    queues !! j = Some q -> name q <> targetName ->
    (callOnQueueNamed targetName method queues).2 !! j = Some q.
Proof.
  unfold callOnQueueNamed.
  destruct (list_find _ queues) as [[i qi]|] eqn:Hfind.
  - apply list_find_Some in Hfind as (Hi & Hq & _). split; [|split].
    + intros Hnone. destruct (Hnone qi); [|done]. by eapply list_elem_of_lookup_2.
    + destruct (method qi) as [[?|?] q']; simpl; apply length_insert.
    + intros j q Hj Hne.
      assert (i <> j) by (intros ->; congruence).
      destruct (method qi) as [[?|?] q']; simpl; by rewrite list_lookup_insert_ne.
  - by repeat split.
Qed.

(** Nobody has created a queue called "Chemistry"; the method here empties
    the waiting list. *)
Lemma callOnQueueNamed_frame_witness :
  callOnQueueNamed "Chemistry"
    (fun q => (Resolved tt, mkQueue (name q) (helpers q) [] (currentlyOpen q)))
    [Scenarios.math; Scenarios.physics]
  = (Resolved tt, [Scenarios.math; Scenarios.physics]).
Proof.
  apply (callOnQueueNamed_frame "Chemistry"
           (fun q => (Resolved tt, mkQueue (name q) (helpers q) [] (currentlyOpen q)))
           [Scenarios.math; Scenarios.physics]).
  intros q Hq.
  repeat (apply elem_of_cons in Hq as [->|Hq]; [by vm_compute|]).
  by apply elem_of_nil in Hq.
Defined.

End AttendingServerV2_More.
